(** * Chunked recording sessions: a model of [backend/chunk_storage.py]

    The development embeds the [ChunkStorage] class of
    [src/backend/chunk_storage.py] and the [upload_chunk] controller of
    [src/backend/app.py] as functions over an explicit file-system state.

    - A file system is a finite map from absolute, normalised paths to
      nodes (a directory, or a regular file with its content).  Symbolic
      links, permissions, name-length limits and concurrent processes are
      outside the model.
    - [pathlib] paths are kept as the code builds them (a list of parts
      that may contain [".."]) and are resolved against the tree at every
      system call, the way the kernel walks a path.
    - Python exceptions are values of [exn]; an operation returns an
      [outcome] together with the file system it leaves behind, so what a
      failed call has already written stays visible.
    - [datetime.now()] is an argument of the operation that reads the clock,
      in microseconds. *)

From Stdlib Require Import ZArith QArith Qround Qpower List Ascii String Lia Lqa.
From stdpp Require Import base tactics option list gmap strings pretty sorting fin_maps.

Local Open Scope string_scope.
Local Open Scope Z_scope.
Local Open Scope list_scope.

(** ** JSON values and Python exceptions *)

(** The values that occur in [metadata.json].  [JIso t] is the JSON string
    that [datetime.isoformat()] produces for the instant [t] (microseconds);
    keeping the instant makes [datetime.fromisoformat] its inverse.  Other
    strings are [JStr] and are taken not to parse as a date. *)
Inductive jval :=
| JNull
| JBool (b : bool)
| JInt (n : Z)
| JStr (s : string)
| JIso (t : Z).

(** A Python [dict] with string keys. *)
Abbreviation jdict := (gmap string jval).

Inductive exn :=
| ValueError (msg : string)
| JSONDecodeError
| KeyError (key : string)
| TypeError
| FileNotFoundError
| FileExistsError
| IsADirectoryError
| NotADirectoryError
| OSError.

(** [isinstance(e, ValueError)]: [json.JSONDecodeError] derives from
    [ValueError]. *)
Definition is_ValueError (e : exn) : bool :=
  match e with
  | ValueError _ | JSONDecodeError => true
  | _ => false
  end.

Inductive outcome (A : Type) :=
| Returns (a : A)
| Raises (e : exn).
Arguments Returns {A} a.
Arguments Raises {A} e.

(** ** The file system *)

(** The content of a regular file: raw bytes, or a JSON document kept in
    parsed form ([json.dump] followed by [json.load] gives the same dict
    back, so the text form is not modelled). *)
Inductive content :=
| Bytes (b : list Byte.byte)
| Json (j : jdict).

Inductive node :=
| Dir
| File (c : content).

(** Absolute path without ["."], [".."] or empty components. *)
Abbreviation path := (list string).

Record fsys := Fsys {
  cwd : path;
  tree : gmap path node
}.

(** ** [pathlib.PurePosixPath] *)

Record pypath := Path_ {
  anchored : bool;
  parts : list string
}.

(** [s.split("/")] *)
Fixpoint segments (s : string) : list string :=
  match s with
  | EmptyString => [EmptyString]
  | String c r =>
      if Ascii.eqb c "/" then EmptyString :: segments r
      else match segments r with
           | x :: xs => String c x :: xs
           | [] => [String c EmptyString]
           end
  end.

Definition keep_part (x : string) : bool :=
  negb (String.eqb x "") && negb (String.eqb x ".").

(** The parts of a path given as a string: empty components and ["."] are
    dropped, [".."] is kept. *)
Definition parse_parts (s : string) : list string :=
  List.filter keep_part (segments s).

Definition starts_with_slash (s : string) : bool :=
  match s with
  | String c _ => Ascii.eqb c "/"
  | EmptyString => false
  end.

(** [Path(s)] *)
Definition Path (s : string) : pypath :=
  Path_ (starts_with_slash s) (parse_parts s).

(** [p / s]: an absolute right operand replaces the left one. *)
Definition joinpath (p : pypath) (s : string) : pypath :=
  if starts_with_slash s then Path s
  else Path_ (anchored p) (parts p ++ parse_parts s).

Infix "/:" := joinpath (at level 40, left associativity).

(** ** Path resolution *)

(** The kernel's walk: every component is looked up in a directory that
    must exist; [".."] goes to the parent (the root is its own parent). *)
Fixpoint walk (t : gmap path node) (cur : path) (comps : list string)
  : outcome path :=
  match comps with
  | [] => Returns cur
  | c :: rest =>
      match t !! cur with
      | Some Dir =>
          walk t (if String.eqb c ".." then removelast cur else cur ++ [c]) rest
      | Some (File _) => Raises NotADirectoryError
      | None => Raises FileNotFoundError
      end
  end.

Definition locate (fs : fsys) (p : pypath) : outcome path :=
  walk (tree fs) (if anchored p then [] else cwd fs) (parts p).

(** ** The monad of file-system operations *)

Definition M (A : Type) : Type := fsys → outcome A * fsys.

Definition ret {A} (a : A) : M A := λ fs, (Returns a, fs).
Definition raise {A} (e : exn) : M A := λ fs, (Raises e, fs).
Definition bind {A B} (m : M A) (k : A → M B) : M B :=
  λ fs, match m fs with
        | (Returns a, fs') => k a fs'
        | (Raises e, fs') => (Raises e, fs')
        end.
(** [try: m except Exception as e: h e] *)
Definition catch {A} (m : M A) (h : exn → M A) : M A :=
  λ fs, match m fs with
        | (Returns a, fs') => (Returns a, fs')
        | (Raises e, fs') => h e fs'
        end.

Notation "'let*' x := m 'in' k" := (bind m (λ x, k))
  (at level 10, x name, m at level 100, k at level 200, only parsing).

Definition lift {A} (o : outcome A) : M A := λ fs, (o, fs).
Definition get_fs : M fsys := λ fs, (Returns fs, fs).
Definition put_tree (t : gmap path node) : M unit :=
  λ fs, (Returns tt, Fsys (cwd fs) t).

(** ** System calls *)

(** [Path.exists()]: false when the walk fails. *)
Definition exists_ (p : pypath) : M bool :=
  let* fs := get_fs in
  match locate fs p with
  | Returns q => ret (match tree fs !! q with Some _ => true | None => false end)
  | Raises _ => ret false
  end.

(** [Path.is_dir()] *)
Definition is_dir (p : pypath) : M bool :=
  let* fs := get_fs in
  match locate fs p with
  | Returns q => ret (match tree fs !! q with Some Dir => true | _ => false end)
  | Raises _ => ret false
  end.

(** [Path.mkdir(exist_ok=True)], without [parents]. *)
Definition mkdir_exist_ok (p : pypath) : M unit :=
  let* fs := get_fs in
  let* q := lift (locate fs p) in
  match tree fs !! q with
  | Some Dir => ret tt
  | Some (File _) => raise FileExistsError
  | None =>
      match tree fs !! removelast q with
      | Some Dir => put_tree (<[q := Dir]> (tree fs))
      | Some (File _) => raise NotADirectoryError
      | None => raise FileNotFoundError
      end
  end.

(** [open(p, 'w')] or [open(p, 'wb')]: creates or truncates the file. *)
Definition open_w (p : pypath) (c : content) : M path :=
  let* fs := get_fs in
  let* q := lift (locate fs p) in
  match tree fs !! q with
  | Some Dir => raise IsADirectoryError
  | _ =>
      match tree fs !! removelast q with
      | Some Dir => let* _ := put_tree (<[q := File c]> (tree fs)) in ret q
      | Some (File _) => raise NotADirectoryError
      | None => raise FileNotFoundError
      end
  end.

(** [with open(p, 'wb') as f: f.write(data)] *)
Definition write_bytes (p : pypath) (data : list Byte.byte) : M unit :=
  let* _ := open_w p (Bytes data) in ret tt.

(** [with open(p, 'w') as f: json.dump(j, f, indent=2)] *)
Definition write_json (p : pypath) (j : jdict) : M unit :=
  let* _ := open_w p (Json j) in ret tt.

(** [with open(p, 'r') as f: json.load(f)] *)
Definition read_json (p : pypath) : M jdict :=
  let* fs := get_fs in
  let* q := lift (locate fs p) in
  match tree fs !! q with
  | Some (File (Json j)) => ret j
  | Some (File (Bytes _)) => raise JSONDecodeError
  | Some Dir => raise IsADirectoryError
  | None => raise FileNotFoundError
  end.

(** The handle of an open output file is the path it was opened at.
    [outfile.write(data)] appends; budgets model a target that accepts only
    [room] more bytes ([None]: no limit): a write that does not fit stores
    the bytes that do and raises [OSError]. *)
Definition handle_write (q : path) (room : option nat) (data : list Byte.byte)
  : M (option nat) :=
  let* fs := get_fs in
  match tree fs !! q with
  | Some (File (Bytes old)) =>
      match room with
      | Some r =>
          if decide (length data ≤ r)%nat
          then let* _ := put_tree (<[q := File (Bytes (old ++ data))]> (tree fs)) in
               ret (Some (r - length data)%nat)
          else let* _ := put_tree (<[q := File (Bytes (old ++ take r data))]> (tree fs)) in
               raise OSError
      | None =>
          let* _ := put_tree (<[q := File (Bytes (old ++ data))]> (tree fs)) in
          ret None
      end
  | _ => raise OSError
  end.

(** Directory listing, as [os.listdir] gives it: the names of the entries
    of [q], without ["."] and [".."], in the order of the underlying map. *)
Fixpoint below (q k : path) : option path :=
  match q, k with
  | [], _ => Some k
  | x :: q', y :: k' => if String.eqb x y then below q' k' else None
  | _ :: _, [] => None
  end.

Definition child_name (q k : path) : option string :=
  match below q k with
  | Some [n] =>
      if String.eqb n "." || String.eqb n ".." then None else Some n
  | _ => None
  end.

Definition listdir (t : gmap path node) (q : path) : list string :=
  omap (λ kv, child_name q kv.1) (map_to_list t).

(** The path of a directory entry: the name is one more part. *)
Definition child (p : pypath) (name : string) : pypath :=
  Path_ (anchored p) (parts p ++ [name]).

(** [Path.iterdir()] *)
Definition iterdir (p : pypath) : M (list pypath) :=
  let* fs := get_fs in
  let* q := lift (locate fs p) in
  match tree fs !! q with
  | Some Dir => ret (child p <$> listdir (tree fs) q)
  | Some (File _) => raise NotADirectoryError
  | None => raise FileNotFoundError
  end.

(** The last part of the path is [".."]. *)
Definition ends_in_dotdot (p : pypath) : bool :=
  match last (parts p) with
  | Some c => String.eqb c ".."
  | None => false
  end.

(** [os.rmdir(p)]: the path is resolved again; the kernel refuses the root
    and a path whose last part is [".."], and a directory that still has
    entries. *)
Definition rmdir (p : pypath) : M unit :=
  let* fs := get_fs in
  let* q := lift (locate fs p) in
  match tree fs !! q with
  | Some Dir =>
      if ends_in_dotdot p then raise OSError
      else match q, listdir (tree fs) q with
           | _ :: _, [] => put_tree (delete q (tree fs))
           | _, _ => raise OSError
           end
  | Some (File _) => raise NotADirectoryError
  | None => raise FileNotFoundError
  end.

(** [q] lies strictly below the directory [d]. *)
Definition strictly_below (d q : path) : Prop := d `prefix_of` q ∧ q ≠ d.

(** [shutil.rmtree(p)]: everything below the directory is removed through
    its descriptor, then the directory itself with [os.rmdir(p)]. *)
Definition rmtree (p : pypath) : M unit :=
  let* fs := get_fs in
  let* q := lift (locate fs p) in
  match tree fs !! q with
  | Some Dir =>
      let* _ := put_tree (filter (λ kv, ¬ strictly_below q kv.1) (tree fs)) in
      rmdir p
  | Some (File _) => raise NotADirectoryError
  | None => raise FileNotFoundError
  end.

(** ** Python helpers *)

Fixpoint zeros (n : nat) : string :=
  match n with
  | O => ""
  | S k => String "0" (zeros k)
  end.

Definition zfill (width : nat) (digits : string) : string :=
  zeros (width - String.length digits) +:+ digits.

(** [f"{n:06d}"]: zero padding to six characters, the sign included. *)
Definition format_06d (n : Z) : string :=
  if n <? 0 then "-" +:+ zfill 5 (pretty (Z.abs_N n))
  else zfill 6 (pretty (Z.to_N n)).

(** [f"chunk_{chunk_index:06d}.webm"] *)
Definition chunk_name (chunk_index : Z) : string :=
  "chunk_" +:+ format_06d chunk_index +:+ ".webm".

Fixpoint strip_head (p s : string) : option string :=
  match p, s with
  | EmptyString, _ => Some s
  | String a p', String b s' => if Ascii.eqb a b then strip_head p' s' else None
  | String _ _, EmptyString => None
  end.

Definition ends_with (suffix s : string) : bool :=
  match strip_head (String.rev suffix) (String.rev s) with
  | Some _ => true
  | None => false
  end.

(** [fnmatch(name, "chunk_*.webm")] *)
Definition fnmatch_chunk (name : string) : bool :=
  match strip_head "chunk_" name with
  | Some rest => ends_with ".webm" rest
  | None => false
  end.

(** [str(p)] for a path object. *)
Definition path_str (p : pypath) : string :=
  match anchored p, parts p with
  | false, [] => "."
  | false, ps => String.concat "/" ps
  | true, ps => "/" +:+ String.concat "/" ps
  end.

(** [len(data)] *)
Definition len (data : list Byte.byte) : Z := Z.of_nat (length data).

(** [d[key] += n] on the value found under [key]: Python adds an [int] to
    an [int] or a [bool] and refuses the other types. *)
Definition py_iadd (key : string) (v : option jval) (n : Z) : outcome jval :=
  match v with
  | None => Raises (KeyError key)
  | Some (JInt m) => Returns (JInt (m + n))
  | Some (JBool b) => Returns (JInt ((if b then 1 else 0) + n))
  | Some _ => Raises TypeError
  end.

(** Truth value of a JSON value, as [not v] sees it. *)
Definition truthy (v : jval) : bool :=
  match v with
  | JNull => false
  | JBool b => b
  | JInt n => negb (n =? 0)
  | JStr s => negb (String.eqb s "")
  | JIso _ => true
  end.

(** [datetime.fromisoformat(d[key])] *)
Definition fromisoformat (key : string) (v : option jval) : outcome Z :=
  match v with
  | None => Raises (KeyError key)
  | Some (JIso t) => Returns t
  | Some (JStr _) => Raises (ValueError "Invalid isoformat string")
  | Some _ => Raises TypeError
  end.

(** [d[key]] *)
Definition getitem (key : string) (d : jdict) : outcome jval :=
  match d !! key with
  | Some v => Returns v
  | None => Raises (KeyError key)
  end.

(** ** Binary64 arithmetic

    [age_hours = (now - created_at).total_seconds() / 3600] is a Python
    [float].  A float is modelled by the rational it denotes.  Every
    operation computes the exact result and rounds it to the nearest
    number with a 53-bit significand, ties to even.  The exponent is left
    unbounded: the differences of two [datetime]s stay below [10^18]
    microseconds in magnitude, far from overflow and from the subnormal
    range. *)

Section binary64.
Local Open Scope Q_scope.

Definition pow2 (e : Z) : Q := 2 ^ e.

(** [floor(log2 v)] for [v > 0]. *)
Definition ilog2 (v : Q) : Z :=
  let k := (Z.log2 (Qnum v) - Z.log2 (Zpos (Qden v)))%Z in
  if Qle_bool (pow2 k) v then k else (k - 1)%Z.

(** Rounding to the nearest integer, ties to even. *)
Definition rne (r : Q) : Z :=
  let q := Qfloor r in
  match Qcompare (r - inject_Z q) (1 # 2) with
  | Lt => q
  | Gt => (q + 1)%Z
  | Eq => if Z.even q then q else (q + 1)%Z
  end.

(** The float nearest to [v > 0]: [v] is scaled so that its integer part
    has 53 bits, rounded, and scaled back. *)
Definition round64_pos (v : Q) : Q :=
  let e := (ilog2 v - 52)%Z in
  inject_Z (rne (v / pow2 e)) * pow2 e.

Definition round64 (v : Q) : Q :=
  match Qnum v with
  | Z0 => 0
  | Zpos _ => round64_pos v
  | Zneg _ => - round64_pos (- v)
  end.

(** [timedelta.total_seconds()], the true division of the microsecond
    count by [10**6]; [us] is the [timedelta] in microseconds. *)
Definition total_seconds (us : Z) : Q :=
  round64 (inject_Z us / inject_Z 1000000).

(** [x / k] for a float [x] and an [int] [k] that a float holds exactly. *)
Definition float_div (x : Q) (k : Z) : Q := round64 (x / inject_Z k).

(** [x > n] for a float [x] and an [int] [n]: Python compares the two
    exactly. *)
Definition float_gt_int (x : Q) (n : Z) : bool :=
  negb (Qle_bool x (inject_Z n)).

End binary64.

(** ** [class ChunkStorage] *)

(** [CHUNKS_DIR = Path("recording_chunks")] *)
Definition CHUNKS_DIR : pypath := Path "recording_chunks".

Record ChunkStorage := {
  session_id : string;
  session_dir : pypath;
  metadata_file : pypath
}.

(** [ChunkStorage.__init__] *)
Definition ChunkStorage_init (sid : string) : ChunkStorage :=
  {| session_id := sid;
     session_dir := CHUNKS_DIR /: sid;
     metadata_file := CHUNKS_DIR /: sid /: "metadata.json" |}.

Section chunk_storage.

(** The text that [json.dump] wrote for a document, needed only when a
    document is read back as bytes. *)
Variable json_text : jdict → list Byte.byte.

(** [Path.read_bytes()] *)
Definition read_bytes (p : pypath) : M (list Byte.byte) :=
  let* fs := get_fs in
  let* q := lift (locate fs p) in
  match tree fs !! q with
  | Some (File (Bytes b)) => ret b
  | Some (File (Json j)) => ret (json_text j)
  | Some Dir => raise IsADirectoryError
  | None => raise FileNotFoundError
  end.

Definition initialize_session (self : ChunkStorage) (mime_type : string)
  (now : Z) : M unit :=
  let* _ := mkdir_exist_ok (session_dir self) in
  let metadata : jdict :=
    <["session_id" := JStr (session_id self)]>
    (<["mime_type" := JStr mime_type]>
    (<["created_at" := JIso now]>
    (<["chunks_received" := JInt 0]>
    (<["total_size" := JInt 0]>
    (<["finalized" := JBool false]> ∅))))) in
  write_json (metadata_file self) metadata.

Definition get_metadata (self : ChunkStorage) : M jdict :=
  let* there := exists_ (metadata_file self) in
  if negb there
  then raise (ValueError ("Session " +:+ session_id self +:+ " does not exist"))
  else read_json (metadata_file self).

Definition save_chunk (self : ChunkStorage) (chunk_index : Z)
  (chunk_data : list Byte.byte) (now : Z) : M jdict :=
  let* there := exists_ (session_dir self) in
  if negb there
  then raise (ValueError ("Session " +:+ session_id self +:+ " not initialized"))
  else
    let chunk_file := session_dir self /: chunk_name chunk_index in
    let* _ := write_bytes chunk_file chunk_data in
    let* metadata := get_metadata self in
    let metadata := <["chunks_received" := JInt (chunk_index + 1)]> metadata in
    let* total := lift (py_iadd "total_size" (metadata !! "total_size")
                                (len chunk_data)) in
    let metadata := <["total_size" := total]> metadata in
    let metadata := <["last_updated" := JIso now]> metadata in
    let* _ := write_json (metadata_file self) metadata in
    ret (<["chunk_index" := JInt chunk_index]>
         (<["size" := JInt (len chunk_data)]>
         (<["total_chunks" := JInt (chunk_index + 1)]>
         (<["total_size" := total]> ∅)))).

(** [sorted(self.session_dir.glob("chunk_*.webm"))]: the entries share their
    parent, so the order of the paths is the order of their names. *)
Definition get_chunks (self : ChunkStorage) : M (list pypath) :=
  let* there := exists_ (session_dir self) in
  if negb there then ret []
  else
    let* fs := get_fs in
    match locate fs (session_dir self) with
    | Returns q =>
        ret (child (session_dir self) <$>
             merge_sort String.le
               (List.filter fnmatch_chunk (listdir (tree fs) q)))
    | Raises _ => ret []
    end.

(** The [for chunk_file in chunks] loop of [combine_chunks]; the state of
    the loop is the running [total_size] and the room left in the target. *)
Fixpoint combine_loop (out : path) (chunks : list pypath) (total_size : Z)
  (room : option nat) : M Z :=
  match chunks with
  | [] => ret total_size
  | chunk_file :: rest =>
      let* chunk_data := read_bytes chunk_file in
      let* room' := handle_write out room chunk_data in
      combine_loop out rest (total_size + len chunk_data) room'
  end.

Definition combine_chunks (self : ChunkStorage) (output_path : pypath)
  (room : option nat) (now : Z) : M jdict :=
  let* chunks := get_chunks self in
  match chunks with
  | [] => raise (ValueError ("No chunks found for session " +:+ session_id self))
  | _ =>
      let* outfile := open_w output_path (Bytes []) in
      let* total_size := combine_loop outfile chunks 0 room in
      let* metadata := get_metadata self in
      let metadata := <["finalized" := JBool true]> metadata in
      let metadata := <["finalized_at" := JIso now]> metadata in
      let metadata := <["output_file" := JStr (path_str output_path)]> metadata in
      let* _ := write_json (metadata_file self) metadata in
      ret (<["chunks_combined" := JInt (Z.of_nat (length chunks))]>
           (<["total_size" := JInt total_size]>
           (<["output_file" := JStr (path_str output_path)]>
           (<["session_id" := JStr (session_id self)]> ∅))))
  end.

Definition cleanup (self : ChunkStorage) : M unit :=
  let* there := exists_ (session_dir self) in
  if there then rmtree (session_dir self) else ret tt.

(** The body of the loop of [list_sessions] for one entry; returns the new
    value of [sessions]. *)
Definition list_sessions_step (session_dir : pypath) (sessions : list jdict)
  : M (list jdict) :=
  let* d := is_dir session_dir in
  if negb d then ret sessions
  else
    let metadata_file := session_dir /: "metadata.json" in
    let* there := exists_ metadata_file in
    if negb there then ret sessions
    else
      let* metadata := read_json metadata_file in
      ret (sessions ++ [metadata]).

Fixpoint list_sessions_loop (dirs : list pypath) (sessions : list jdict)
  : M (list jdict) :=
  match dirs with
  | [] => ret sessions
  | session_dir :: rest =>
      let* sessions' := list_sessions_step session_dir sessions in
      list_sessions_loop rest sessions'
  end.

Definition list_sessions : M (list jdict) :=
  let* dirs := iterdir CHUNKS_DIR in
  list_sessions_loop dirs [].

(** The body of the loop of [cleanup_old_sessions] for one entry; returns
    the new value of [cleaned]. *)
Definition cleanup_old_step (now max_age_hours : Z) (session_dir : pypath)
  (cleaned : Z) : M Z :=
  let* d := is_dir session_dir in
  if negb d then ret cleaned
  else
    let metadata_file := session_dir /: "metadata.json" in
    let* there := exists_ metadata_file in
    if negb there then ret cleaned
    else
      let* metadata := read_json metadata_file in
      let* created_at := lift (fromisoformat "created_at" (metadata !! "created_at")) in
      let age_hours := float_div (total_seconds (now - created_at)) 3600 in
      if float_gt_int age_hours max_age_hours
         && negb (truthy (default (JBool false) (metadata !! "finalized")))
      then let* _ := rmtree session_dir in ret (cleaned + 1)
      else ret cleaned.

Fixpoint cleanup_old_loop (now max_age_hours : Z) (dirs : list pypath)
  (cleaned : Z) : M Z :=
  match dirs with
  | [] => ret cleaned
  | session_dir :: rest =>
      let* cleaned' := cleanup_old_step now max_age_hours session_dir cleaned in
      cleanup_old_loop now max_age_hours rest cleaned'
  end.

Definition cleanup_old_sessions (max_age_hours : Z) (now : Z) : M Z :=
  let* dirs := iterdir CHUNKS_DIR in
  cleanup_old_loop now max_age_hours dirs 0.

End chunk_storage.

(** ** The controller ([backend/app.py]) *)

Record response := Response {
  status_code : Z;
  body : jdict
}.

(** [str(e)]: the message of a [ValueError]; for the other classes the text
    depends on the platform and the class name stands for it. *)
Definition exn_str (e : exn) : string :=
  match e with
  | ValueError msg => msg
  | JSONDecodeError => "JSONDecodeError"
  | KeyError key => "'" +:+ key +:+ "'"
  | TypeError => "TypeError"
  | FileNotFoundError => "FileNotFoundError"
  | FileExistsError => "FileExistsError"
  | IsADirectoryError => "IsADirectoryError"
  | NotADirectoryError => "NotADirectoryError"
  | OSError => "OSError"
  end.

Definition error_body (error : string) (e : exn) : jdict :=
  <["error" := JStr error]> (<["detail" := JStr (exn_str e)]> ∅).

(** The [except] clauses of a handler: [ValueError] gives 404, any other
    exception 500. *)
Definition handle_errors (not_found failed : string) (e : exn) : M response :=
  if is_ValueError e then ret (Response 404 (error_body not_found e))
  else ret (Response 500 (error_body failed e)).

(** [os.unlink(p)] *)
Definition unlink (p : pypath) : M unit :=
  let* fs := get_fs in
  let* q := lift (locate fs p) in
  match tree fs !! q with
  | Some (File _) => put_tree (delete q (tree fs))
  | Some Dir => raise IsADirectoryError
  | None => raise FileNotFoundError
  end.

(** [POST /api/recording/initialize]; [session_id] and [mime_type] are
    the fields of the request. *)
Definition initialize_recording (session_id mime_type : string) (now : Z)
  : M response :=
  catch
    (let chunk_store := ChunkStorage_init session_id in
     let* _ := initialize_session chunk_store mime_type now in
     ret (Response 200
            (<["session_id" := JStr session_id]>
            (<["status" := JStr "initialized"]> ∅))))
    (λ e, ret (Response 500
                 (error_body "Failed to initialize recording session" e))).


Section finalize.

Variable json_text : jdict → list Byte.byte.

(** The external transcription of the file at a path: it may read and
    change the file system, and may fail. *)
Variable transcribe_audio : pypath → M string.

(** [POST /api/recording/finalize/{session_id}]; [tmp_name] is the name
    that [tempfile.NamedTemporaryFile(delete=False, suffix=".webm")] chose
    and [room] what the temporary file can take. *)
Definition finalize_recording (session_id : string) (tmp_name : string)
  (room : option nat) (now : Z) : M response :=
  let chunk_store := ChunkStorage_init session_id in
  let on_error :=
    handle_errors "Session not found or no chunks available"
                  "Failed to finalize recording" in
  let* created :=
    catch (let* _ := open_w (Path tmp_name) (Bytes []) in ret None)
          (λ e, ret (Some e)) in
  match created with
  | Some e => on_error e
  | None =>
      let* resp :=
        catch
          (let* result := combine_chunks json_text chunk_store (Path tmp_name) room now in
           let* transcript := transcribe_audio (Path tmp_name) in
           let* _ := cleanup chunk_store in
           ret (Response 200
                  (<["transcript" := JStr transcript]>
                  (<["chunks_combined" := default JNull (result !! "chunks_combined")]>
                  (<["total_size" := default JNull (result !! "total_size")]>
                  (<["status" := JStr "success"]> ∅))))))
          on_error in
      (* finally *)
      let* there := exists_ (Path tmp_name) in
      let* _ := (if there then catch (unlink (Path tmp_name)) (λ _, ret tt)
                 else ret tt) in
      ret resp
  end.

End finalize.

(** [GET /api/recording/status/{session_id}] *)
Definition recording_status (session_id : string) : M response :=
  catch
    (let chunk_store := ChunkStorage_init session_id in
     let* metadata := get_metadata chunk_store in
     let* chunks_received := lift (getitem "chunks_received" metadata) in
     let* total_size := lift (getitem "total_size" metadata) in
     let* created_at := lift (getitem "created_at" metadata) in
     ret (Response 200
            (<["session_id" := JStr session_id]>
            (<["chunks_received" := chunks_received]>
            (<["total_size" := total_size]>
            (<["created_at" := created_at]>
            (<["finalized" := default (JBool false) (metadata !! "finalized")]>
            (<["status" := JStr "success"]> ∅))))))))
    (handle_errors "Session not found" "Failed to get session status").

(** ** Sequences of uploads *)

Record upload := Upload {
  up_index : Z;
  up_data : list Byte.byte;
  up_time : Z
}.

(** [save_chunk] called once per upload, in the order of the list; stops
    at the first call that raises. *)
Fixpoint save_all (self : ChunkStorage) (calls : list upload) : M unit :=
  match calls with
  | [] => ret tt
  | u :: rest =>
      let* _ := save_chunk self (up_index u) (up_data u) (up_time u) in
      save_all self rest
  end.

(** ** Vocabulary of the statements *)

Fixpoint no_slash (s : string) : bool :=
  match s with
  | EmptyString => true
  | String c r => negb (Ascii.eqb c "/") && no_slash r
  end.

(** A string that is one path segment: not empty, without a separator, and
    neither ["."] nor [".."]. *)
Definition plain_segment (s : string) : bool :=
  no_slash s && negb (String.eqb s "") && negb (String.eqb s ".")
  && negb (String.eqb s "..").

(** What [os.stat] finds at a path: the node the walk ends at, if any. *)
Definition stat (fs : fsys) (p : pypath) : option node :=
  match locate fs p with
  | Returns q => tree fs !! q
  | Raises _ => None
  end.

Definition is_some {A} (o : option A) : bool :=
  match o with Some _ => true | None => false end.

Definition is_Dir (o : option node) : bool :=
  match o with Some Dir => true | _ => false end.

(** The record that an accepted [save_chunk] writes back. *)
Definition saved_metadata (j : jdict) (chunk_index : Z) (total : jval)
  (now : Z) : jdict :=
  <["last_updated" := JIso now]>
  (<["total_size" := total]>
  (<["chunks_received" := JInt (chunk_index + 1)]> j)).

(** The dict that an accepted [save_chunk] returns. *)
Definition save_result (chunk_index : Z) (chunk_data : list Byte.byte)
  (total : jval) : jdict :=
  <["chunk_index" := JInt chunk_index]>
  (<["size" := JInt (len chunk_data)]>
  (<["total_chunks" := JInt (chunk_index + 1)]>
  (<["total_size" := total]> ∅))).

(** The sum of the payload sizes of a sequence of uploads. *)
Definition total_len (calls : list upload) : Z :=
  foldr (λ u acc, len (up_data u) + acc) 0 calls.

(** The largest index of a non-empty sequence of uploads. *)
Definition max_index (u : upload) (rest : list upload) : Z :=
  foldr (λ v m, Z.max (up_index v) m) (up_index u) rest.

(** The output target has room for [n] bytes. *)
Definition fits (room : option nat) (n : nat) : Prop :=
  match room with
  | None => True
  | Some r => (n ≤ r)%nat
  end.

(** [fs'] differs from [fs] at most in the regular file at [qo]. *)
Definition same_but (qo : path) (fs fs' : fsys) : Prop :=
  cwd fs' = cwd fs ∧
  (∀ q, q ≠ qo → tree fs' !! q = tree fs !! q) ∧
  (∀ q, tree fs' !! q = Some Dir ↔ tree fs !! q = Some Dir).

(** The output target [out] can be opened for writing: its parent
    directory exists and it is not itself a directory. *)
Definition writable (fs : fsys) (out : pypath) : Prop :=
  ∃ qo, locate fs out = Returns qo ∧
        tree fs !! qo ≠ Some Dir ∧ tree fs !! removelast qo = Some Dir.

(** The path [out] does not lead into the directory [dir]. *)
Definition outside (fs : fsys) (out dir : pypath) : Prop :=
  ∀ qo d, locate fs out = Returns qo → locate fs dir = Returns d →
          ¬ d `prefix_of` qo.

(** The record that a successful [combine_chunks] writes back. *)
Definition finalized_metadata (j : jdict) (output_path : pypath) (now : Z)
  : jdict :=
  <["output_file" := JStr (path_str output_path)]>
  (<["finalized_at" := JIso now]>
  (<["finalized" := JBool true]> j)).

(** The storage root of a process: [CHUNKS_DIR] under its working
    directory. *)
Definition storage_root (fs : fsys) : path := cwd fs ++ ["recording_chunks"].

(** [fs'] differs from [fs] at most at paths at or below [base]. *)
Definition changes_within (base : path) (fs fs' : fsys) : Prop :=
  cwd fs' = cwd fs ∧
  ∀ q, ¬ base `prefix_of` q → tree fs' !! q = tree fs !! q.



(** Everything at or below the path [d] is as in [t]. *)
Definition kept (t t' : gmap path node) (d : path) : Prop :=
  ∀ q, d `prefix_of` q → t' !! q = t !! q.


(** The test of the loop of [cleanup_old_sessions] on the entry [n] of
    the tree [t]; used to follow the loop. *)
Definition stale (t : gmap path node) (root : path) (max_age_hours now : Z)
  (n : string) : bool :=
  match t !! (root ++ [n]), t !! (root ++ [n; "metadata.json"]) with
  | Some Dir, Some (File (Json j)) =>
      match j !! "created_at" with
      | Some (JIso created_at) =>
          float_gt_int (float_div (total_seconds (now - created_at)) 3600)
                       max_age_hours
          && negb (truthy (default (JBool false) (j !! "finalized")))
      | _ => false
      end
  | _, _ => false
  end.

(** The record of the entry [n], when the entry is a directory with a
    [metadata.json], can be read and has a creation date. *)
Definition readable (t : gmap path node) (root : path) (n : string) : Prop :=
  t !! (root ++ [n]) = Some Dir →
  t !! (root ++ [n; "metadata.json"]) ≠ None →
  ∃ j created_at,
    t !! (root ++ [n; "metadata.json"]) = Some (File (Json j)) ∧
    j !! "created_at" = Some (JIso created_at).

(** The record of the entry [n] of the directory [root]: the document in
    its [metadata.json], when the entry is a directory that has one. *)
Definition record_of (t : gmap path node) (root : path) (n : string)
  : option jdict :=
  match t !! (root ++ [n]), t !! (root ++ [n; "metadata.json"]) with
  | Some Dir, Some (File (Json j)) => Some j
  | _, _ => None
  end.

(** The [metadata.json] of the entry [n], when the entry is a directory
    that has one, is a JSON document. *)
Definition parsable (t : gmap path node) (root : path) (n : string) : Prop :=
  t !! (root ++ [n]) = Some Dir →
  t !! (root ++ [n; "metadata.json"]) ≠ None →
  ∃ j, t !! (root ++ [n; "metadata.json"]) = Some (File (Json j)).

(** ** Concrete states *)

(** The file system of a server started in [/srv], once the module is
    imported ([CHUNKS_DIR.mkdir(exist_ok=True)]). *)
Definition fs_boot : fsys :=
  Fsys ["srv"]
    (<[["srv"; "recording_chunks"] := Dir]>
     (<[["srv"] := Dir]>
     (<[[] := Dir]> ∅))).

(** The metadata record that [initialize_session] writes. *)
Definition fresh_metadata (sid mime_type : string) (now : Z) : jdict :=
  <["session_id" := JStr sid]>
  (<["mime_type" := JStr mime_type]>
  (<["created_at" := JIso now]>
  (<["chunks_received" := JInt 0]>
  (<["total_size" := JInt 0]>
  (<["finalized" := JBool false]> ∅))))).

(** [fs_boot] after [initialize_session] for the session ["s1"] at time
    1000. *)
Definition fs_s1 : fsys :=
  Fsys ["srv"]
    (<[["srv"; "recording_chunks"; "s1"; "metadata.json"] :=
         File (Json (fresh_metadata "s1" "audio/webm" 1000))]>
     (<[["srv"; "recording_chunks"; "s1"] := Dir]> (tree fs_boot))).

(** [fs_boot] with a directory for the session ["s2"] that has no
    [metadata.json]. *)
Definition fs_s2_bare : fsys :=
  Fsys ["srv"] (<[["srv"; "recording_chunks"; "s2"] := Dir]> (tree fs_boot)).

(** The session ["s1"] with three chunks, uploaded in the order 2, 0, 1. *)
Definition fs_s1_abc : fsys :=
  (save_all (ChunkStorage_init "s1")
     [Upload 2 [Byte.x44] 1001;
      Upload 0 [Byte.x41] 1002;
      Upload 1 [Byte.x42; Byte.x43] 1003] fs_s1).2.

(** Three sessions under the storage root, seen at the hundredth hour:
    ["old"] and ["done"] were created at hour 0, ["new"] at hour 90;
    only ["done"] is finalised. *)
Definition fs_three : fsys :=
  Fsys ["srv"]
    (<[["srv"; "recording_chunks"; "old"] := Dir]>
    (<[["srv"; "recording_chunks"; "old"; "metadata.json"] :=
         File (Json (fresh_metadata "old" "audio/webm" 0))]>
    (<[["srv"; "recording_chunks"; "done"] := Dir]>
    (<[["srv"; "recording_chunks"; "done"; "metadata.json"] :=
         File (Json (<["finalized" := JBool true]>
                       (fresh_metadata "done" "audio/webm" 0)))]>
    (<[["srv"; "recording_chunks"; "new"] := Dir]>
    (<[["srv"; "recording_chunks"; "new"; "metadata.json"] :=
         File (Json (fresh_metadata "new" "audio/webm" 324000000000))]>
    (tree fs_boot))))))).


(** [fs_boot] with a session ["bad"] whose record has no field. *)
Definition fs_undated : fsys :=
  Fsys ["srv"]
    (<[["srv"; "recording_chunks"; "bad"] := Dir]>
    (<[["srv"; "recording_chunks"; "bad"; "metadata.json"] := File (Json ∅)]>
    (tree fs_boot))).

(** A server directory whose storage root was removed. *)
Definition fs_rootless : fsys :=
  Fsys ["srv"] (<[["srv"] := Dir]> (<[[] := Dir]> ∅)).

(** * Proofs *)

(** ** Strings *)

Lemma segments_no_slash s : no_slash s = true → segments s = [s].
Proof.
  induction s as [|c r IH]; simpl; [done|].
  intros [Hc Hr]%andb_prop. apply negb_true_iff in Hc. rewrite Hc.
  by rewrite (IH Hr).
Qed.

Lemma plain_segment_spec s :
  plain_segment s = true →
  no_slash s = true ∧ s ≠ "" ∧ s ≠ "." ∧ s ≠ "..".
Proof.
  unfold plain_segment. rewrite !andb_true_iff, !negb_true_iff.
  intros [[[? ?%String.eqb_neq] ?%String.eqb_neq] ?%String.eqb_neq]. done.
Qed.

Lemma parse_parts_plain s : plain_segment s = true → parse_parts s = [s].
Proof.
  intros (Hs & H0 & H1 & _)%plain_segment_spec.
  unfold parse_parts. rewrite (segments_no_slash _ Hs). simpl.
  unfold keep_part.
  apply String.eqb_neq in H0, H1. by rewrite H0, H1.
Qed.

Lemma starts_with_slash_no s : no_slash s = true → starts_with_slash s = false.
Proof.
  destruct s as [|c r]; simpl; [done|].
  intros [Hc _]%andb_prop. by apply negb_true_iff in Hc.
Qed.

Lemma joinpath_plain p s : plain_segment s = true → p /: s = child p s.
Proof.
  intros Hp. unfold joinpath, child.
  rewrite (parse_parts_plain _ Hp).
  apply plain_segment_spec in Hp as (Hs & _).
  by rewrite (starts_with_slash_no _ Hs).
Qed.

Lemma no_slash_app a b : no_slash (a +:+ b) = no_slash a && no_slash b.
Proof.
  induction a as [|c r IH]; simpl; [done|]. by rewrite IH, andb_assoc.
Qed.

Lemma no_slash_zeros n : no_slash (zeros n) = true.
Proof. induction n; simpl; done. Qed.

Lemma no_slash_pretty_N_char x : Ascii.eqb (pretty_N_char x) "/" = false.
Proof. unfold pretty_N_char. by repeat case_match. Qed.

Lemma no_slash_pretty_N_go x s :
  no_slash s = true → no_slash (pretty_N_go x s) = true.
Proof.
  revert s. induction (N.lt_wf_0 x) as [x _ IH]; intros s Hs.
  destruct (decide (x = 0)%N) as [->|Hx]; [by rewrite pretty_N_go_0|].
  rewrite pretty_N_go_step by lia.
  apply IH; [apply N.div_lt; lia|].
  simpl. by rewrite no_slash_pretty_N_char, Hs.
Qed.

Lemma no_slash_pretty_N (x : N) : no_slash (pretty x) = true.
Proof.
  unfold pretty, pretty_N. case_decide; [done|].
  by apply no_slash_pretty_N_go.
Qed.

Lemma no_slash_format_06d n : no_slash (format_06d n) = true.
Proof.
  unfold format_06d, zfill. case_match.
  - change ("-" +:+ ?s) with (String "-" s). simpl.
    by rewrite no_slash_app, no_slash_zeros, no_slash_pretty_N.
  - by rewrite no_slash_app, no_slash_zeros, no_slash_pretty_N.
Qed.

Lemma chunk_name_plain i : plain_segment (chunk_name i) = true.
Proof.
  unfold plain_segment, chunk_name.
  rewrite !no_slash_app, no_slash_format_06d. done.
Qed.

Lemma chunk_name_not_metadata i : chunk_name i ≠ "metadata.json".
Proof. unfold chunk_name. simpl. discriminate. Qed.

(** ** Path resolution *)

Lemma walk_app (t : gmap path node) (cur l1 l2 : path) :
  walk t cur (l1 ++ l2) =
  match walk t cur l1 with
  | Returns d => walk t d l2
  | Raises e => Raises e
  end.
Proof.
  revert cur. induction l1 as [|c l1 IH]; intros cur; simpl; [done|].
  destruct (t !! cur) as [[|?]|]; auto.
Qed.

Lemma walk_snoc (t : gmap path node) (cur l : path) (n : string) (d : path) :
  walk t cur l = Returns d → t !! d = Some Dir → n ≠ ".." →
  walk t cur (l ++ [n]) = Returns (d ++ [n]).
Proof.
  intros Hw Hd Hn. rewrite walk_app, Hw. simpl. rewrite Hd.
  apply String.eqb_neq in Hn. by rewrite Hn.
Qed.

(** A walk that succeeds still succeeds when the tree keeps its
    directories. *)
Lemma walk_mono (t t' : gmap path node) (cur l d : path) :
  (∀ q, t !! q = Some Dir → t' !! q = Some Dir) →
  walk t cur l = Returns d → walk t' cur l = Returns d.
Proof.
  intros Hdirs. revert cur. induction l as [|c l IH]; intros cur; simpl; [done|].
  destruct (t !! cur) as [[|?]|] eqn:Hcur; try discriminate.
  rewrite (Hdirs _ Hcur). apply IH.
Qed.

Lemma walk_no_dotdot (t : gmap path node) (comps cur q : path) :
  Forall (λ c, c ≠ "..") comps →
  walk t cur comps = Returns q → q = cur ++ comps.
Proof.
  intros Hall. revert cur. induction Hall as [|c comps Hc _ IH]; intros cur; simpl.
  - intros [= <-]. by rewrite app_nil_r.
  - destruct (t !! cur) as [[|?]|]; try discriminate.
    apply String.eqb_neq in Hc. rewrite Hc.
    intros ->%IH. by rewrite <- app_assoc.
Qed.

(** Without [".."] a walk only looks at the prefixes of its result. *)
Lemma walk_agree_prefix (t t' : gmap path node) (comps cur : path) :
  Forall (λ c, c ≠ "..") comps →
  (∀ k, k `prefix_of` cur ++ comps → k ≠ cur ++ comps → t' !! k = t !! k) →
  walk t' cur comps = walk t cur comps.
Proof.
  intros Hall. revert cur. induction Hall as [|c comps Hc _ IH]; intros cur H; [done|].
  simpl. rewrite H; cycle 1.
  { by exists (c :: comps). }
  { intros Heq. apply (f_equal length) in Heq. rewrite length_app in Heq.
    simpl in Heq. lia. }
  destruct (t !! cur) as [[|?]|]; try done.
  apply String.eqb_neq in Hc. rewrite Hc. apply IH.
  intros k. rewrite <- app_assoc. apply H.
Qed.

Lemma dirs_insert_file (t : gmap path node) q c p :
  t !! q ≠ Some Dir → t !! p = Some Dir → <[q := File c]> t !! p = Some Dir.
Proof.
  intros Hq Hp. rewrite lookup_insert_ne; [done|]. intros ->. done.
Qed.

Lemma dirs_insert_dir (t : gmap path node) q p :
  t !! p = Some Dir → <[q := Dir]> t !! p = Some Dir.
Proof.
  intros Hp. destruct (decide (q = p)) as [->|Hne].
  - by rewrite lookup_insert_eq.
  - by rewrite lookup_insert_ne.
Qed.

Lemma locate_child fs p d n :
  locate fs p = Returns d → tree fs !! d = Some Dir → n ≠ ".." →
  locate fs (child p n) = Returns (d ++ [n]).
Proof. unfold locate, child. simpl. apply walk_snoc. Qed.

Lemma removelast_snoc {A} (l : list A) x : removelast (l ++ [x]) = l.
Proof. apply removelast_last. Qed.

(** ** Directory listings *)

Lemma below_spec (q k r : path) : below q k = Some r ↔ k = q ++ r.
Proof.
  revert k. induction q as [|x q IH]; intros k; simpl.
  - split; congruence.
  - destruct k as [|y k]; [split; discriminate|].
    destruct (String.eqb_spec x y) as [->|Hne].
    + rewrite IH. split; congruence.
    + split; [discriminate|]. intros [= ? ?]. done.
Qed.

Lemma child_name_spec (q k : path) n :
  child_name q k = Some n ↔ k = q ++ [n] ∧ n ≠ "." ∧ n ≠ "..".
Proof.
  unfold child_name. destruct (below q k) as [r|] eqn:Hb.
  - apply below_spec in Hb as ->.
    destruct r as [|m [|m' r]].
    + split; [discriminate|]. intros [H%app_inv_head _]. discriminate.
    + destruct (String.eqb_spec m ".") as [->|H1]; simpl.
      { split; [discriminate|]. intros (H%app_inv_head & ? & _). congruence. }
      destruct (String.eqb_spec m "..") as [->|H2]; simpl.
      { split; [discriminate|]. intros (H%app_inv_head & _ & ?). congruence. }
      split.
      * intros [= ->]. done.
      * intros (H%app_inv_head & _). congruence.
    + split; [discriminate|]. intros [H%app_inv_head _]. discriminate.
  - split; [discriminate|]. intros [-> _].
    assert (below q (q ++ [n]) = Some [n]) by by apply below_spec.
    congruence.
Qed.

Lemma elem_of_listdir (t : gmap path node) q n :
  n ∈ listdir t q ↔ is_Some (t !! (q ++ [n])) ∧ n ≠ "." ∧ n ≠ "..".
Proof.
  unfold listdir. rewrite list_elem_of_omap. split.
  - intros ([k x] & Hin & Hc). apply elem_of_map_to_list in Hin.
    simpl in Hc. apply child_name_spec in Hc as (-> & ? & ?). eauto.
  - intros ([x Hx] & ? & ?). exists (q ++ [n], x). split.
    + by apply elem_of_map_to_list.
    + simpl. by apply child_name_spec.
Qed.

Lemma NoDup_omap_inj {A B} (f : A → option B) (l : list A) :
  NoDup l →
  (∀ x y z, x ∈ l → y ∈ l → f x = Some z → f y = Some z → x = y) →
  NoDup (omap f l).
Proof.
  induction 1 as [|x l Hx Hnd IH]; intros Hinj; simpl; [constructor|].
  assert (NoDup (omap f l)) as Hrec.
  { apply IH. intros a b z Ha Hb. apply Hinj; by right. }
  destruct (f x) as [z|] eqn:Hfx; [|done].
  constructor; [|done].
  intros (y & Hy & Hfy)%list_elem_of_omap.
  apply Hx. rewrite (Hinj x y z); [done|left|by right|done|done].
Qed.

Lemma NoDup_listdir (t : gmap path node) q : NoDup (listdir t q).
Proof.
  unfold listdir. apply NoDup_omap_inj; [apply NoDup_map_to_list|].
  intros [k1 x1] [k2 x2] n H1 H2 Hc1 Hc2. simpl in *.
  apply child_name_spec in Hc1 as (-> & _), Hc2 as (-> & _).
  apply elem_of_map_to_list in H1, H2. congruence.
Qed.

Lemma listdir_agree (t t' : gmap path node) q :
  (∀ n, is_Some (t' !! (q ++ [n])) ↔ is_Some (t !! (q ++ [n]))) →
  listdir t' q ≡ₚ listdir t q.
Proof.
  intros H. apply NoDup_Permutation; [apply NoDup_listdir..|].
  intros n. rewrite !elem_of_listdir. by rewrite H.
Qed.

(** ** Running the system calls *)

Lemma exists_run p fs : exists_ p fs = (Returns (is_some (stat fs p)), fs).
Proof.
  unfold exists_, stat, bind, get_fs, ret.
  destruct (locate fs p); [|done]. by destruct (tree fs !! a).
Qed.

Lemma is_dir_run p fs : is_dir p fs = (Returns (is_Dir (stat fs p)), fs).
Proof.
  unfold is_dir, stat, bind, get_fs, ret.
  destruct (locate fs p); [|done]. by destruct (tree fs !! a) as [[|?]|].
Qed.

Lemma bind_Returns {A B} (m : M A) (k : A → M B) fs a fs' :
  m fs = (Returns a, fs') → bind m k fs = k a fs'.
Proof. unfold bind. by intros ->. Qed.

Lemma bind_Raises {A B} (m : M A) (k : A → M B) fs e fs' :
  m fs = (Raises e, fs') → bind m k fs = (Raises e, fs').
Proof. unfold bind. by intros ->. Qed.

Lemma open_w_run p c fs q :
  locate fs p = Returns q →
  tree fs !! q ≠ Some Dir →
  tree fs !! removelast q = Some Dir →
  open_w p c fs = (Returns q, Fsys (cwd fs) (<[q := File c]> (tree fs))).
Proof.
  intros Hq Hnd Hpar. unfold open_w, bind, get_fs, lift, put_tree, ret.
  rewrite Hq, Hpar. by destruct (tree fs !! q) as [[|?]|].
Qed.

Lemma open_w_is_dir p c fs q :
  locate fs p = Returns q → tree fs !! q = Some Dir →
  open_w p c fs = (Raises IsADirectoryError, fs).
Proof.
  intros Hq Hd. unfold open_w, bind, get_fs, lift, raise. by rewrite Hq, Hd.
Qed.

Lemma write_json_run p j fs q :
  locate fs p = Returns q →
  tree fs !! q ≠ Some Dir →
  tree fs !! removelast q = Some Dir →
  write_json p j fs = (Returns tt, Fsys (cwd fs) (<[q := File (Json j)]> (tree fs))).
Proof.
  intros. unfold write_json. by erewrite bind_Returns by by apply open_w_run.
Qed.

Lemma write_bytes_run p b fs q :
  locate fs p = Returns q →
  tree fs !! q ≠ Some Dir →
  tree fs !! removelast q = Some Dir →
  write_bytes p b fs = (Returns tt, Fsys (cwd fs) (<[q := File (Bytes b)]> (tree fs))).
Proof.
  intros. unfold write_bytes. by erewrite bind_Returns by by apply open_w_run.
Qed.

Lemma read_json_run p fs q j :
  locate fs p = Returns q → tree fs !! q = Some (File (Json j)) →
  read_json p fs = (Returns j, fs).
Proof.
  intros Hq Hj. unfold read_json, bind, get_fs, lift, ret. by rewrite Hq, Hj.
Qed.

Lemma read_bytes_run jt p fs q b :
  locate fs p = Returns q → tree fs !! q = Some (File (Bytes b)) →
  read_bytes jt p fs = (Returns b, fs).
Proof.
  intros Hq Hb. unfold read_bytes, bind, get_fs, lift, ret. by rewrite Hq, Hb.
Qed.

Lemma mkdir_exist_ok_there p fs q :
  locate fs p = Returns q → tree fs !! q = Some Dir →
  mkdir_exist_ok p fs = (Returns tt, fs).
Proof.
  intros Hq Hd. unfold mkdir_exist_ok, bind, get_fs, lift, ret. by rewrite Hq, Hd.
Qed.


Lemma lookup_rmtree (t : gmap path node) q p :
  filter (λ kv, ¬ q `prefix_of` kv.1) t !! p =
  if decide (q `prefix_of` p) then None else t !! p.
Proof.
  case_decide as Hp.
  - apply map_lookup_filter_None. right. intros x _ Hx. by apply Hx.
  - destruct (t !! p) as [x|] eqn:E.
    + apply map_lookup_filter_Some. done.
    + apply map_lookup_filter_None. by left.
Qed.

Lemma lookup_emptied (t : gmap path node) q p :
  filter (λ kv, ¬ strictly_below q kv.1) t !! p =
  if decide (strictly_below q p) then None else t !! p.
Proof.
  case_decide as Hp.
  - apply map_lookup_filter_None. right. intros x _ Hx. by apply Hx.
  - destruct (t !! p) as [x|] eqn:E.
    + apply map_lookup_filter_Some. done.
    + apply map_lookup_filter_None. by left.
Qed.

Lemma prefix_antisym (k q : path) : k `prefix_of` q → q `prefix_of` k → k = q.
Proof.
  intros [a ->] [b Hb]. rewrite <- app_assoc in Hb.
  rewrite <- (app_nil_r k) in Hb at 1. apply app_inv_head in Hb.
  symmetry in Hb. apply app_eq_nil in Hb as [-> _]. by rewrite app_nil_r.
Qed.

Lemma listdir_emptied (t : gmap path node) q :
  listdir (filter (λ kv, ¬ strictly_below q kv.1) t) q = [].
Proof.
  destruct (listdir _ q) as [|n l] eqn:E; [done|].
  assert (n ∈ listdir (filter (λ kv, ¬ strictly_below q kv.1) t) q) as Hn
    by (rewrite E; left).
  apply elem_of_listdir in Hn as [[x Hx] _].
  rewrite lookup_emptied in Hx. rewrite decide_True in Hx; [done|].
  split; [by exists [n]|]. intros Heq. apply (f_equal length) in Heq.
  rewrite length_app in Heq. simpl in Heq. lia.
Qed.

Lemma delete_emptied (t : gmap path node) q :
  delete q (filter (λ kv, ¬ strictly_below q kv.1) t)
  = filter (λ kv, ¬ q `prefix_of` kv.1) t.
Proof.
  apply map_eq. intros k. rewrite lookup_rmtree.
  destruct (decide (q = k)) as [<-|Hne].
  - rewrite lookup_delete_eq. by rewrite decide_True.
  - rewrite lookup_delete_ne by done. rewrite lookup_emptied.
    case_decide as H1; case_decide as H2; try done.
    + destruct H1 as [H1 _]. by destruct H2.
    + destruct H1. by split.
Qed.

(** [rmtree] on a directory reached without [".."]: the directory and
    everything below it are gone. *)
Lemma rmtree_run p fs q :
  locate fs p = Returns q → tree fs !! q = Some Dir →
  Forall (λ c, c ≠ "..") (parts p) → q ≠ [] →
  rmtree p fs =
  (Returns tt, Fsys (cwd fs) (filter (λ kv, ¬ q `prefix_of` kv.1) (tree fs))).
Proof.
  intros Hq Hd Hparts Hne.
  set (t1 := filter (λ kv, ¬ strictly_below q kv.1) (tree fs)).
  assert (Hq1 : locate (Fsys (cwd fs) t1) p = Returns q).
  { unfold locate in *. cbn [cwd tree]. rewrite <- Hq.
    apply walk_agree_prefix; [done|].
    apply walk_no_dotdot in Hq as <-; [|done].
    intros k Hk Hkq. unfold t1. rewrite lookup_emptied.
    rewrite decide_False; [done|]. intros [Hqk _].
    apply Hkq. by apply prefix_antisym. }
  assert (Hd1 : t1 !! q = Some Dir).
  { unfold t1. rewrite lookup_emptied. rewrite decide_False; [done|].
    by intros [_ ?]. }
  assert (Hlast : ends_in_dotdot p = false).
  { unfold ends_in_dotdot. destruct (last (parts p)) as [c|] eqn:El; [|done].
    apply String.eqb_neq. apply last_Some in El as [l El].
    rewrite El in Hparts. apply Forall_app in Hparts as [_ Hc].
    by inversion Hc. }
  unfold rmtree, bind at 1, get_fs. unfold bind at 1, lift.
  rewrite Hq, Hd. unfold bind at 1, put_tree. fold t1.
  unfold rmdir, bind, get_fs, lift, put_tree, raise.
  rewrite Hq1. cbn [tree cwd]. rewrite Hd1, Hlast.
  pose proof (listdir_emptied (tree fs) q) as Hl. fold t1 in Hl.
  pose proof (delete_emptied (tree fs) q) as Hdel. fold t1 in Hdel.
  destruct q as [|x q']; [done|].
  by rewrite Hl, Hdel.
Qed.

Lemma stat_child fs p d n :
  locate fs p = Returns d → tree fs !! d = Some Dir → n ≠ ".." →
  stat fs (child p n) = tree fs !! (d ++ [n]).
Proof. intros. unfold stat. by erewrite locate_child. Qed.

Lemma stat_Dir fs p :
  stat fs p = Some Dir → ∃ d, locate fs p = Returns d ∧ tree fs !! d = Some Dir.
Proof. unfold stat. destruct (locate fs p); [eauto|done]. Qed.

Lemma locate_mono fs t' p d :
  (∀ q, tree fs !! q = Some Dir → t' !! q = Some Dir) →
  locate fs p = Returns d → locate (Fsys (cwd fs) t') p = Returns d.
Proof. unfold locate. simpl. apply walk_mono. Qed.

(** ** The paths of a session *)

Lemma session_dir_plain sid :
  plain_segment sid = true →
  session_dir (ChunkStorage_init sid) = Path_ false ["recording_chunks"; sid].
Proof. intros Hp. simpl. by rewrite joinpath_plain. Qed.

Lemma metadata_file_child sid :
  metadata_file (ChunkStorage_init sid) =
  child (session_dir (ChunkStorage_init sid)) "metadata.json".
Proof. reflexivity. Qed.

Lemma chunk_file_child p i : p /: chunk_name i = child p (chunk_name i).
Proof. apply joinpath_plain, chunk_name_plain. Qed.

Lemma chunk_name_not_dotdot i : chunk_name i ≠ "..".
Proof. by destruct (plain_segment_spec _ (chunk_name_plain i)) as (_&_&_&?). Qed.

Lemma get_metadata_run (self : ChunkStorage) fs :
  get_metadata self fs =
  match stat fs (metadata_file self) with
  | None =>
      (Raises (ValueError ("Session " +:+ session_id self +:+ " does not exist")), fs)
  | Some (File (Json j)) => (Returns j, fs)
  | Some (File (Bytes _)) => (Raises JSONDecodeError, fs)
  | Some Dir => (Raises IsADirectoryError, fs)
  end.
Proof.
  unfold get_metadata. erewrite bind_Returns by apply exists_run.
  unfold stat, read_json, bind, get_fs, lift, ret, raise.
  destruct (locate fs (metadata_file self)) as [q|e] eqn:E; simpl; [|done].
  destruct (tree fs !! q) as [[|[?|?]]|] eqn:E'; simpl; rewrite ?E, ?E'; done.
Qed.

(** ** [save_chunk] *)

Lemma save_chunk_run sid fs d i data now j tot :
  let self := ChunkStorage_init sid in
  locate fs (session_dir self) = Returns d →
  tree fs !! d = Some Dir →
  tree fs !! (d ++ [chunk_name i]) ≠ Some Dir →
  tree fs !! (d ++ ["metadata.json"]) = Some (File (Json j)) →
  py_iadd "total_size" (j !! "total_size") (len data) = Returns tot →
  save_chunk self i data now fs =
  (Returns (save_result i data tot),
   Fsys (cwd fs)
     (<[d ++ ["metadata.json"] := File (Json (saved_metadata j i tot now))]>
      (<[d ++ [chunk_name i] := File (Bytes data)]> (tree fs)))).
Proof.
  intros self Hd Hdir Hchunk Hmeta Htot. subst self.
  set (self := ChunkStorage_init sid) in *.
  assert (Hne : d ++ [chunk_name i] ≠ d ++ ["metadata.json"]).
  { intros Heq%app_inv_head.
    apply (chunk_name_not_metadata i). congruence. }
  unfold save_chunk.
  erewrite bind_Returns by apply exists_run.
  unfold stat. rewrite Hd, Hdir. cbn [negb is_some].
  erewrite bind_Returns; cycle 1.
  { apply write_bytes_run with (q := d ++ [chunk_name i]).
    - rewrite chunk_file_child. apply locate_child; auto using chunk_name_not_dotdot.
    - done.
    - by rewrite removelast_snoc. }
  set (t1 := <[d ++ [chunk_name i] := File (Bytes data)]> (tree fs)).
  assert (Hd1 : locate (Fsys (cwd fs) t1) (session_dir self) = Returns d).
  { apply locate_mono; [|done]. intros q. by apply dirs_insert_file. }
  assert (Hdir1 : t1 !! d = Some Dir).
  { by apply dirs_insert_file. }
  assert (Hm1 : locate (Fsys (cwd fs) t1) (metadata_file self)
                = Returns (d ++ ["metadata.json"])).
  { unfold self. rewrite metadata_file_child. by apply locate_child. }
  assert (Hmeta1 : t1 !! (d ++ ["metadata.json"]) = Some (File (Json j))).
  { unfold t1. by rewrite lookup_insert_ne. }
  erewrite bind_Returns; cycle 1.
  { rewrite get_metadata_run. unfold stat. rewrite Hm1. simpl tree.
    rewrite Hmeta1. done. }
  rewrite lookup_insert_ne by done. rewrite Htot.
  erewrite bind_Returns by done.
  erewrite bind_Returns; cycle 1.
  { apply write_json_run with (q := d ++ ["metadata.json"]).
    - done.
    - simpl tree. by rewrite Hmeta1.
    - simpl tree. by rewrite removelast_snoc. }
  done.
Qed.

Lemma saved_metadata_total j i tot now :
  saved_metadata j i tot now !! "total_size" = Some tot.
Proof.
  unfold saved_metadata. rewrite lookup_insert_ne by done.
  by rewrite lookup_insert_eq.
Qed.

Lemma saved_metadata_chunks j i tot now :
  saved_metadata j i tot now !! "chunks_received" = Some (JInt (i + 1)).
Proof.
  unfold saved_metadata. rewrite !lookup_insert_ne by done.
  by rewrite lookup_insert_eq.
Qed.

(** The loop invariant of a run of uploads, on resolved paths. *)
Lemma save_all_run sid calls : ∀ fs d j t0,
  let self := ChunkStorage_init sid in
  locate fs (session_dir self) = Returns d →
  tree fs !! d = Some Dir →
  tree fs !! (d ++ ["metadata.json"]) = Some (File (Json j)) →
  j !! "total_size" = Some (JInt t0) →
  (∀ u, u ∈ calls → tree fs !! (d ++ [chunk_name (up_index u)]) ≠ Some Dir) →
  ∃ t' j',
    save_all self calls fs = (Returns tt, Fsys (cwd fs) t') ∧
    locate (Fsys (cwd fs) t') (session_dir self) = Returns d ∧
    t' !! d = Some Dir ∧
    t' !! (d ++ ["metadata.json"]) = Some (File (Json j')) ∧
    j' !! "total_size" = Some (JInt (t0 + total_len calls)) ∧
    (∀ u, last calls = Some u →
          j' !! "chunks_received" = Some (JInt (up_index u + 1))) ∧
    (∀ q, t' !! q = Some Dir ↔ tree fs !! q = Some Dir).
Proof.
  induction calls as [|u rest IH]; intros fs d j t0 self Hd Hdir Hmeta Htot Hslots;
    subst self.
  - exists (tree fs), j. simpl. destruct fs as [c t]; simpl in *.
    rewrite Z.add_0_r. repeat split; done.
  - set (j1 := saved_metadata j (up_index u) (JInt (t0 + len (up_data u))) (up_time u)).
    set (t1 := <[d ++ ["metadata.json"] := File (Json j1)]>
                 (<[d ++ [chunk_name (up_index u)] := File (Bytes (up_data u))]> (tree fs))).
    assert (Hstep : save_all (ChunkStorage_init sid) (u :: rest) fs
                    = save_all (ChunkStorage_init sid) rest (Fsys (cwd fs) t1)).
    { simpl. erewrite bind_Returns; [done|].
      apply save_chunk_run; try done.
      - apply Hslots. left.
      - by rewrite Htot. }
    assert (Hdirs : ∀ q, t1 !! q = Some Dir ↔ tree fs !! q = Some Dir).
    { intros q. unfold t1.
      destruct (decide (q = d ++ ["metadata.json"])) as [->|Hq1].
      { rewrite lookup_insert_eq, Hmeta. done. }
      rewrite lookup_insert_ne by done.
      destruct (decide (q = d ++ [chunk_name (up_index u)])) as [->|Hq2].
      { rewrite lookup_insert_eq. split; [done|]. intros Hc.
        exfalso. revert Hc. apply Hslots. left. }
      by rewrite lookup_insert_ne. }
    destruct (IH (Fsys (cwd fs) t1) d j1 (t0 + len (up_data u)))
      as (t' & j' & Hrun & Hd' & Hdir' & Hmeta' & Htot' & Hlast' & Hdirs').
    { apply locate_mono; [|done]. intros q. apply Hdirs. }
    { simpl. by apply Hdirs. }
    { simpl. unfold t1. by rewrite lookup_insert_eq. }
    { apply saved_metadata_total. }
    { simpl. intros v Hv Hc. apply Hdirs in Hc. revert Hc. apply Hslots. by right. }
    cbn [cwd tree] in *. exists t', j'. rewrite Hstep, Hrun.
    split_and!; try done.
    + rewrite Htot'. do 2 f_equal. unfold total_len. simpl. lia.
    + intros v Hv. destruct rest as [|w rest'].
      * simpl in Hv. injection Hv as <-.
        cbn [save_all ret] in Hrun. injection Hrun as <-.
        unfold t1 in Hmeta'.
        rewrite lookup_insert_eq in Hmeta'. injection Hmeta' as <-.
        apply saved_metadata_chunks.
      * apply Hlast'. done.
    + intros q. rewrite Hdirs'. apply Hdirs.
Qed.

Example fs_s1_initialized :
  initialize_session (ChunkStorage_init "s1") "audio/webm" 1000 fs_boot
  = (Returns tt, fs_s1).
Proof. vm_compute. reflexivity. Qed.

(** C1 (amended): for an initialised session whose record counts [t0]
    bytes, every sequence of uploads into slots that are not directories is
    accepted, and afterwards [chunks_received] is one plus the index of the
    last upload and [total_size] is [t0] plus the sum of the payload sizes
    ([t0 = 0] right after [initialize_session]). *)
Theorem save_all_last_index sid fs j t0 calls u :
  stat fs (session_dir (ChunkStorage_init sid)) = Some Dir →
  stat fs (metadata_file (ChunkStorage_init sid)) = Some (File (Json j)) →
  j !! "total_size" = Some (JInt t0) →
  (∀ v, v ∈ calls →
     stat fs (session_dir (ChunkStorage_init sid) /: chunk_name (up_index v))
     ≠ Some Dir) →
  last calls = Some u →
  ∃ fs' j',
    save_all (ChunkStorage_init sid) calls fs = (Returns tt, fs') ∧
    stat fs' (metadata_file (ChunkStorage_init sid)) = Some (File (Json j')) ∧
    j' !! "chunks_received" = Some (JInt (up_index u + 1)) ∧
    j' !! "total_size" = Some (JInt (t0 + total_len calls)).
Proof.
  intros (d & Hd & Hdir)%stat_Dir Hmeta Htot Hslots Hlast.
  rewrite metadata_file_child in Hmeta.
  rewrite (stat_child _ _ d) in Hmeta by done.
  destruct (save_all_run sid calls fs d j t0 Hd Hdir Hmeta Htot)
    as (t' & j' & Hrun & Hd' & Hdir' & Hmeta' & Htot' & Hlast' & _).
  { intros v Hv. specialize (Hslots v Hv).
    rewrite chunk_file_child in Hslots.
    by rewrite (stat_child _ _ d) in Hslots by auto using chunk_name_not_dotdot. }
  exists (Fsys (cwd fs) t'), j'. split_and!; auto.
  rewrite metadata_file_child. by rewrite (stat_child _ _ d).
Qed.

Lemma save_all_last_index_witness :
  ∃ fs' j',
    save_all (ChunkStorage_init "s1")
      [Upload 5 [Byte.x41] 1001; Upload 1 [Byte.x42; Byte.x43] 1002] fs_s1
    = (Returns tt, fs') ∧
    stat fs' (metadata_file (ChunkStorage_init "s1")) = Some (File (Json j')) ∧
    j' !! "chunks_received" = Some (JInt (1 + 1)) ∧
    j' !! "total_size" =
      Some (JInt (0 + total_len
                    [Upload 5 [Byte.x41] 1001; Upload 1 [Byte.x42; Byte.x43] 1002])).
Proof.
  apply (save_all_last_index "s1" fs_s1 (fresh_metadata "s1" "audio/webm" 1000) 0
           [Upload 5 [Byte.x41] 1001; Upload 1 [Byte.x42; Byte.x43] 1002]
           (Upload 1 [Byte.x42; Byte.x43] 1002)).
  - vm_compute. reflexivity.
  - vm_compute. reflexivity.
  - vm_compute. reflexivity.
  - intros v Hv.
    apply elem_of_cons in Hv as [->|Hv]; [vm_compute; discriminate|].
    apply elem_of_cons in Hv as [->|Hv]; [vm_compute; discriminate|].
    by apply elem_of_nil in Hv.
  - reflexivity.
Defined.

(** C1 as stated fails: after uploads with the distinct indices 5 and 1, in
    this order, [chunks_received] is 2 and not [max(5, 1) + 1 = 6]. *)
Lemma chunks_received_not_max :
  ¬ (∀ sid fs u rest fs' j',
       NoDup (up_index <$> u :: rest) →
       save_all (ChunkStorage_init sid) (u :: rest) fs = (Returns tt, fs') →
       stat fs' (metadata_file (ChunkStorage_init sid)) = Some (File (Json j')) →
       j' !! "chunks_received" = Some (JInt (max_index u rest + 1))).
Proof.
  intros H.
  set (u := Upload 5 [Byte.x41] 1001).
  set (v := Upload 1 [Byte.x42; Byte.x43] 1002).
  destruct (save_all_run "s1" [u; v] fs_s1 ["srv"; "recording_chunks"; "s1"]
              (fresh_metadata "s1" "audio/webm" 1000) 0)
    as (t' & j' & Hrun & Hd' & Hdir' & Hmeta' & _ & Hlast' & _).
  { vm_compute. reflexivity. }
  { vm_compute. reflexivity. }
  { vm_compute. reflexivity. }
  { vm_compute. reflexivity. }
  { intros w Hw.
    apply elem_of_cons in Hw as [->|Hw]; [vm_compute; discriminate|].
    apply elem_of_cons in Hw as [->|Hw]; [vm_compute; discriminate|].
    by apply elem_of_nil in Hw. }
  assert (Hnd : NoDup (up_index <$> [u; v])).
  { simpl. apply NoDup_cons. split; [|apply NoDup_singleton].
    intros [=]%list_elem_of_singleton. }
  specialize (H "s1" fs_s1 u [v] _ j' Hnd Hrun).
  rewrite (Hlast' v eq_refl) in H.
  assert (Some (JInt (up_index v + 1)) = Some (JInt (max_index u [v] + 1))) as Heq.
  { apply H. rewrite metadata_file_child.
    by rewrite (stat_child _ _ ["srv"; "recording_chunks"; "s1"]). }
  vm_compute in Heq. discriminate.
Qed.


Lemma catch_Returns {A} (m : M A) h fs a fs' :
  m fs = (Returns a, fs') → catch m h fs = (Returns a, fs').
Proof. unfold catch. by intros ->. Qed.

Lemma catch_Raises {A} (m : M A) h fs e fs' :
  m fs = (Raises e, fs') → catch m h fs = h e fs'.
Proof. unfold catch. by intros ->. Qed.




(** ** A session directory without its record *)

(** C10: when the session directory exists but [metadata.json] does not,
    [save_chunk] raises the does-not-exist [ValueError] after it has written
    the chunk file: the file is there in the state the failed call leaves,
    and that state differs from the one before unless the very same file was
    already there. *)
Theorem save_chunk_not_atomic sid fs i data now :
  stat fs (session_dir (ChunkStorage_init sid)) = Some Dir →
  stat fs (metadata_file (ChunkStorage_init sid)) = None →
  stat fs (session_dir (ChunkStorage_init sid) /: chunk_name i) ≠ Some Dir →
  ∃ fs',
    save_chunk (ChunkStorage_init sid) i data now fs =
      (Raises (ValueError ("Session " +:+ sid +:+ " does not exist")), fs') ∧
    stat fs' (session_dir (ChunkStorage_init sid) /: chunk_name i)
      = Some (File (Bytes data)) ∧
    stat fs' (metadata_file (ChunkStorage_init sid)) = None ∧
    (stat fs (session_dir (ChunkStorage_init sid) /: chunk_name i)
       ≠ Some (File (Bytes data)) → fs' ≠ fs).
Proof.
  intros (d & Hd & Hdir)%stat_Dir Hmeta Hslot.
  rewrite metadata_file_child in Hmeta.
  rewrite (stat_child _ _ d) in Hmeta by done.
  rewrite chunk_file_child in Hslot |- *.
  rewrite (stat_child _ _ d) in Hslot |- * by auto using chunk_name_not_dotdot.
  set (t1 := <[d ++ [chunk_name i] := File (Bytes data)]> (tree fs)).
  assert (Hne : d ++ [chunk_name i] ≠ d ++ ["metadata.json"]).
  { intros Heq%app_inv_head. apply (chunk_name_not_metadata i). congruence. }
  assert (Hd1 : locate (Fsys (cwd fs) t1) (session_dir (ChunkStorage_init sid))
                = Returns d).
  { apply locate_mono; [|done]. intros q. by apply dirs_insert_file. }
  assert (Hdir1 : t1 !! d = Some Dir) by by apply dirs_insert_file.
  exists (Fsys (cwd fs) t1). split_and!.
  - unfold save_chunk.
    erewrite bind_Returns by apply exists_run.
    unfold stat at 1. rewrite Hd, Hdir. cbn [negb is_some].
    erewrite bind_Returns; cycle 1.
    { apply write_bytes_run with (q := d ++ [chunk_name i]).
      - rewrite chunk_file_child. apply locate_child; auto using chunk_name_not_dotdot.
      - done.
      - by rewrite removelast_snoc. }
    erewrite bind_Raises; [done|].
    rewrite get_metadata_run, metadata_file_child.
    rewrite (stat_child _ _ d) by done.
    simpl. fold t1. unfold t1. rewrite lookup_insert_ne by done. by rewrite Hmeta.
  - rewrite (stat_child _ _ d) by auto using chunk_name_not_dotdot.
    simpl. unfold t1. by rewrite lookup_insert_eq.
  - rewrite metadata_file_child, (stat_child _ _ d) by done.
    simpl. unfold t1. by rewrite lookup_insert_ne.
  - intros Hold Heq. apply Hold. rewrite <- Heq at 1. simpl.
    unfold t1. by rewrite lookup_insert_eq.
Qed.

Lemma save_chunk_not_atomic_witness :
  ∃ fs',
    save_chunk (ChunkStorage_init "s2") 0 [Byte.x41] 1001 fs_s2_bare =
      (Raises (ValueError ("Session " +:+ "s2" +:+ " does not exist")), fs') ∧
    stat fs' (session_dir (ChunkStorage_init "s2") /: chunk_name 0)
      = Some (File (Bytes [Byte.x41])) ∧
    stat fs' (metadata_file (ChunkStorage_init "s2")) = None ∧
    (stat fs_s2_bare (session_dir (ChunkStorage_init "s2") /: chunk_name 0)
       ≠ Some (File (Bytes [Byte.x41])) → fs' ≠ fs_s2_bare).
Proof.
  apply (save_chunk_not_atomic "s2" fs_s2_bare 0 [Byte.x41] 1001).
  - vm_compute. reflexivity.
  - vm_compute. reflexivity.
  - vm_compute. discriminate.
Defined.

(** ** [initialize_session] on an existing session *)

Lemma fresh_metadata_fields sid mime now :
  fresh_metadata sid mime now !! "chunks_received" = Some (JInt 0) ∧
  fresh_metadata sid mime now !! "total_size" = Some (JInt 0) ∧
  fresh_metadata sid mime now !! "finalized" = Some (JBool false) ∧
  fresh_metadata sid mime now !! "created_at" = Some (JIso now) ∧
  fresh_metadata sid mime now !! "last_updated" = None.
Proof. unfold fresh_metadata. split_and!; by simplify_map_eq. Qed.

(** C8: on a session that is already initialised, [initialize_session]
    returns, the record is the fresh one (no chunk, no byte, not finalised,
    created now), and nothing else in the file system changes: the chunk
    files keep their content. *)
Theorem initialize_session_again sid fs j mime now :
  stat fs (session_dir (ChunkStorage_init sid)) = Some Dir →
  stat fs (metadata_file (ChunkStorage_init sid)) = Some (File (Json j)) →
  ∃ fs' qm,
    initialize_session (ChunkStorage_init sid) mime now fs = (Returns tt, fs') ∧
    locate fs (metadata_file (ChunkStorage_init sid)) = Returns qm ∧
    stat fs' (metadata_file (ChunkStorage_init sid))
      = Some (File (Json (fresh_metadata sid mime now))) ∧
    fresh_metadata sid mime now !! "chunks_received" = Some (JInt 0) ∧
    fresh_metadata sid mime now !! "total_size" = Some (JInt 0) ∧
    fresh_metadata sid mime now !! "finalized" = Some (JBool false) ∧
    fresh_metadata sid mime now !! "created_at" = Some (JIso now) ∧
    (∀ q, q ≠ qm → tree fs' !! q = tree fs !! q) ∧
    (∀ i, stat fs' (session_dir (ChunkStorage_init sid) /: chunk_name i)
          = stat fs (session_dir (ChunkStorage_init sid) /: chunk_name i)).
Proof.
  intros (d & Hd & Hdir)%stat_Dir Hmeta.
  rewrite metadata_file_child in Hmeta.
  rewrite (stat_child _ _ d) in Hmeta by done.
  set (t' := <[d ++ ["metadata.json"] := File (Json (fresh_metadata sid mime now))]>
               (tree fs)).
  assert (Hm : locate fs (metadata_file (ChunkStorage_init sid))
               = Returns (d ++ ["metadata.json"])).
  { rewrite metadata_file_child. by apply locate_child. }
  assert (Hd' : locate (Fsys (cwd fs) t') (session_dir (ChunkStorage_init sid))
                = Returns d).
  { apply locate_mono; [|done]. intros q. apply dirs_insert_file. by rewrite Hmeta. }
  assert (Hdir' : t' !! d = Some Dir).
  { apply dirs_insert_file; [by rewrite Hmeta|done]. }
  destruct (fresh_metadata_fields sid mime now) as (? & ? & ? & ? & _).
  exists (Fsys (cwd fs) t'), (d ++ ["metadata.json"]). split_and!; try done.
  - unfold initialize_session.
    erewrite bind_Returns by (by eapply mkdir_exist_ok_there).
    apply write_json_run; [done|by rewrite Hmeta|by rewrite removelast_snoc].
  - rewrite metadata_file_child, (stat_child _ _ d) by done.
    simpl. unfold t'. by rewrite lookup_insert_eq.
  - intros q Hq. simpl. unfold t'. by rewrite lookup_insert_ne.
  - intros i. rewrite chunk_file_child.
    rewrite !(stat_child _ _ d) by auto using chunk_name_not_dotdot.
    simpl. unfold t'. rewrite lookup_insert_ne; [done|].
    intros Heq%app_inv_head. apply (chunk_name_not_metadata i). congruence.
Qed.

Lemma initialize_session_again_witness :
  ∃ fs' qm,
    initialize_session (ChunkStorage_init "s1") "audio/ogg" 2000 fs_s1
      = (Returns tt, fs') ∧
    locate fs_s1 (metadata_file (ChunkStorage_init "s1")) = Returns qm ∧
    stat fs' (metadata_file (ChunkStorage_init "s1"))
      = Some (File (Json (fresh_metadata "s1" "audio/ogg" 2000))) ∧
    fresh_metadata "s1" "audio/ogg" 2000 !! "chunks_received" = Some (JInt 0) ∧
    fresh_metadata "s1" "audio/ogg" 2000 !! "total_size" = Some (JInt 0) ∧
    fresh_metadata "s1" "audio/ogg" 2000 !! "finalized" = Some (JBool false) ∧
    fresh_metadata "s1" "audio/ogg" 2000 !! "created_at" = Some (JIso 2000) ∧
    (∀ q, q ≠ qm → tree fs' !! q = tree fs_s1 !! q) ∧
    (∀ i, stat fs' (session_dir (ChunkStorage_init "s1") /: chunk_name i)
          = stat fs_s1 (session_dir (ChunkStorage_init "s1") /: chunk_name i)).
Proof.
  apply (initialize_session_again "s1" fs_s1
           (fresh_metadata "s1" "audio/webm" 1000) "audio/ogg" 2000).
  - vm_compute. reflexivity.
  - vm_compute. reflexivity.
Defined.

(** ** [cleanup] *)

Lemma cleanup_absent sid fs :
  stat fs (session_dir (ChunkStorage_init sid)) = None →
  cleanup (ChunkStorage_init sid) fs = (Returns tt, fs).
Proof.
  intros Hs. unfold cleanup.
  erewrite bind_Returns by apply exists_run. by rewrite Hs.
Qed.

Lemma stat_rmtree_gone fs p d :
  locate fs p = Returns d →
  stat (Fsys (cwd fs) (filter (λ kv, ¬ d `prefix_of` kv.1) (tree fs))) p = None.
Proof.
  intros Hd. unfold stat.
  destruct (locate (Fsys _ _) p) as [q|e] eqn:Hq; [|done].
  cbn [tree]. rewrite lookup_rmtree.
  assert (q = d) as ->.
  { assert (locate fs p = Returns q) as Hq'; [|congruence].
    revert Hq. unfold locate. cbn [cwd tree]. apply walk_mono.
    intros k. rewrite lookup_rmtree. by case_decide. }
  by rewrite decide_True.
Qed.

Lemma cleanup_regular_file sid fs c :
  stat fs (session_dir (ChunkStorage_init sid)) = Some (File c) →
  cleanup (ChunkStorage_init sid) fs = (Raises NotADirectoryError, fs).
Proof.
  intros Hs. unfold cleanup.
  erewrite bind_Returns by apply exists_run. rewrite Hs. cbn [is_some].
  unfold stat in Hs. unfold rmtree, bind, get_fs, lift, raise.
  destruct (locate fs _) as [q|e]; [|done]. by rewrite Hs.
Qed.

(** C9 (amended): when nothing exists at the session path, [cleanup]
    returns and leaves the file system as it is; when a regular file is
    there, it raises [NotADirectoryError] and changes nothing; for a
    session id that is one plain path segment, when the session directory
    exists [cleanup] removes it with everything below it and touches
    nothing else, after which the path no longer exists and a second
    [cleanup] returns without error and changes nothing. *)
Theorem cleanup_idempotent sid fs :
  (stat fs (session_dir (ChunkStorage_init sid)) = None →
     cleanup (ChunkStorage_init sid) fs = (Returns tt, fs)) ∧
  (∀ c, stat fs (session_dir (ChunkStorage_init sid)) = Some (File c) →
     cleanup (ChunkStorage_init sid) fs = (Raises NotADirectoryError, fs)) ∧
  (plain_segment sid = true →
   stat fs (session_dir (ChunkStorage_init sid)) = Some Dir →
     ∃ fs',
       cleanup (ChunkStorage_init sid) fs = (Returns tt, fs') ∧
       (∀ q, tree fs' !! q =
             if decide ((cwd fs ++ ["recording_chunks"; sid]) `prefix_of` q)
             then None else tree fs !! q) ∧
       stat fs' (session_dir (ChunkStorage_init sid)) = None ∧
       cleanup (ChunkStorage_init sid) fs' = (Returns tt, fs')).
Proof.
  split_and!; [apply cleanup_absent|apply cleanup_regular_file|].
  intros Hp Hs. destruct (stat_Dir _ _ Hs) as (d & Hd & Hdir).
  assert (d = cwd fs ++ ["recording_chunks"; sid]) as Hdeq.
  { revert Hd. rewrite (session_dir_plain sid Hp). unfold locate. cbn [anchored parts].
    apply walk_no_dotdot.
    destruct (plain_segment_spec _ Hp) as (_ & _ & _ & ?). repeat constructor; done. }
  exists (Fsys (cwd fs) (filter (λ kv, ¬ d `prefix_of` kv.1) (tree fs))).
  split_and!.
  - unfold cleanup. erewrite bind_Returns by apply exists_run.
    rewrite Hs. cbn [is_some]. apply rmtree_run; try done.
    + rewrite (session_dir_plain sid Hp). cbn [parts].
      destruct (plain_segment_spec _ Hp) as (_ & _ & _ & ?). repeat constructor; done.
    + rewrite Hdeq. by destruct (cwd fs).
  - intros q. cbn [tree]. rewrite <- Hdeq. apply lookup_rmtree.
  - by apply stat_rmtree_gone.
  - apply cleanup_absent. by apply stat_rmtree_gone.
Qed.

Lemma cleanup_idempotent_witness :
  cleanup (ChunkStorage_init "s1") fs_boot = (Returns tt, fs_boot) ∧
  cleanup (ChunkStorage_init "s1/metadata.json") fs_s1
    = (Raises NotADirectoryError, fs_s1) ∧
  ∃ fs',
    cleanup (ChunkStorage_init "s1") fs_s1 = (Returns tt, fs') ∧
    (∀ q, tree fs' !! q =
          if decide ((cwd fs_s1 ++ ["recording_chunks"; "s1"]) `prefix_of` q)
          then None else tree fs_s1 !! q) ∧
    stat fs' (session_dir (ChunkStorage_init "s1")) = None ∧
    cleanup (ChunkStorage_init "s1") fs' = (Returns tt, fs').
Proof.
  split_and!.
  - apply (proj1 (cleanup_idempotent "s1" fs_boot)). vm_compute. reflexivity.
  - apply (proj1 (proj2 (cleanup_idempotent "s1/metadata.json" fs_s1))
             (Json (fresh_metadata "s1" "audio/webm" 1000))).
    vm_compute. reflexivity.
  - apply (proj2 (proj2 (cleanup_idempotent "s1" fs_s1))).
    + reflexivity.
    + vm_compute. reflexivity.
Defined.

(** C9 as stated fails: the session ["s1/metadata.json"] was never
    initialised and has no directory, its path being the record of the
    session ["s1"], yet [cleanup] raises [NotADirectoryError]. *)
Lemma cleanup_not_always_safe :
  ¬ (∀ sid fs,
       stat fs (session_dir (ChunkStorage_init sid)) ≠ Some Dir →
       ∃ fs', cleanup (ChunkStorage_init sid) fs = (Returns tt, fs')).
Proof.
  intros H.
  destruct (H "s1/metadata.json" fs_s1) as [fs' Hrun].
  { vm_compute. discriminate. }
  rewrite (cleanup_regular_file _ _ (Json (fresh_metadata "s1" "audio/webm" 1000)))
    in Hrun; [discriminate|].
  vm_compute. reflexivity.
Qed.
(** ** [get_chunks] and [combine_chunks] *)

Lemma get_chunks_run (self : ChunkStorage) fs d x :
  locate fs (session_dir self) = Returns d →
  tree fs !! d = Some x →
  get_chunks self fs =
  (Returns (child (session_dir self) <$>
            merge_sort String.le
              (List.filter fnmatch_chunk (listdir (tree fs) d))), fs).
Proof.
  intros Hd Hx. unfold get_chunks.
  erewrite bind_Returns by apply exists_run.
  unfold stat. rewrite Hd, Hx. cbn [negb is_some].
  unfold bind, get_fs, ret. by rewrite Hd.
Qed.

Lemma get_chunks_absent (self : ChunkStorage) fs :
  stat fs (session_dir self) = None → get_chunks self fs = (Returns [], fs).
Proof.
  intros Hs. unfold get_chunks.
  erewrite bind_Returns by apply exists_run. by rewrite Hs.
Qed.

Lemma filter_nil_iff {A} (f : A → bool) (l : list A) :
  (∀ x, x ∈ l → f x = false) → List.filter f l = [].
Proof.
  induction l as [|a l IH]; intros H; simpl; [done|].
  rewrite (H a) by left. apply IH. intros x Hx. apply H. by right.
Qed.

Lemma fnmatch_chunk_not_dots n :
  fnmatch_chunk n = true → n ≠ "." ∧ n ≠ "..".
Proof. intros H. split; intros ->; discriminate. Qed.

Lemma get_chunks_empty (self : ChunkStorage) fs :
  stat fs (session_dir self) = Some Dir →
  (∀ n, fnmatch_chunk n = true → stat fs (child (session_dir self) n) = None) →
  get_chunks self fs = (Returns [], fs).
Proof.
  intros (d & Hd & Hdir)%stat_Dir Hnone.
  rewrite (get_chunks_run self fs d Dir) by done.
  rewrite filter_nil_iff; [done|].
  intros n [[x Hx] _]%elem_of_listdir.
  destruct (fnmatch_chunk n) eqn:Hm; [|done].
  specialize (Hnone n Hm).
  rewrite (stat_child _ _ d) in Hnone by (by apply fnmatch_chunk_not_dots || done).
  congruence.
Qed.

(** C3 (amended): [combine_chunks] raises one and the same [ValueError],
    "No chunks found for session <id>", when the session directory does not
    exist and when it exists without any chunk file; the file system is left
    as it was. *)
Theorem combine_chunks_nothing_to_combine jt sid out room now fs :
  stat fs (session_dir (ChunkStorage_init sid)) = None ∨
  (stat fs (session_dir (ChunkStorage_init sid)) = Some Dir ∧
   ∀ n, fnmatch_chunk n = true →
        stat fs (child (session_dir (ChunkStorage_init sid)) n) = None) →
  combine_chunks jt (ChunkStorage_init sid) out room now fs =
    (Raises (ValueError ("No chunks found for session " +:+ sid)), fs).
Proof.
  intros H.
  assert (get_chunks (ChunkStorage_init sid) fs = (Returns [], fs)) as Hc.
  { destruct H as [H|[H1 H2]].
    - by apply get_chunks_absent.
    - by apply get_chunks_empty. }
  unfold combine_chunks. by rewrite (bind_Returns _ _ _ _ _ Hc).
Qed.

Lemma combine_chunks_nothing_to_combine_witness :
  combine_chunks (λ _, []) (ChunkStorage_init "s1") (Path "/srv/out.webm")
    None 3000 fs_boot =
    (Raises (ValueError ("No chunks found for session " +:+ "s1")), fs_boot) ∧
  combine_chunks (λ _, []) (ChunkStorage_init "s1") (Path "/srv/out.webm")
    None 3000 fs_s1 =
    (Raises (ValueError ("No chunks found for session " +:+ "s1")), fs_s1).
Proof.
  split.
  - apply (combine_chunks_nothing_to_combine (λ _, []) "s1" (Path "/srv/out.webm")
             None 3000 fs_boot).
    left. vm_compute. reflexivity.
  - apply (combine_chunks_nothing_to_combine (λ _, []) "s1" (Path "/srv/out.webm")
             None 3000 fs_s1).
    right. split; [vm_compute; reflexivity|].
    intros n Hn.
    assert (n ≠ "metadata.json") as Hne by (intros ->; discriminate).
    destruct (fnmatch_chunk_not_dots n Hn) as [_ Hdd].
    rewrite (stat_child fs_s1 _ ["srv"; "recording_chunks"; "s1"] n);
      [|vm_compute; reflexivity|vm_compute; reflexivity|done].
    unfold fs_s1, fs_boot. cbn [tree].
    simpl app. rewrite !lookup_insert_ne by congruence. apply lookup_empty.
Defined.

(** C3 as stated fails: the error raised for a session that was never
    initialised is not distinct from the one raised for an initialised
    session without chunks. *)
Lemma combine_errors_not_distinct :
  ¬ (∀ jt sid out room now fs1 fs2 e1 e2 fs1' fs2',
       stat fs1 (session_dir (ChunkStorage_init sid)) = None →
       stat fs2 (session_dir (ChunkStorage_init sid)) = Some Dir →
       get_chunks (ChunkStorage_init sid) fs2 = (Returns [], fs2) →
       combine_chunks jt (ChunkStorage_init sid) out room now fs1 = (Raises e1, fs1') →
       combine_chunks jt (ChunkStorage_init sid) out room now fs2 = (Raises e2, fs2') →
       e1 ≠ e2).
Proof.
  intros H.
  apply (H (λ _, []) "s1" (Path "/srv/out.webm") None 3000 fs_boot fs_s1
           (ValueError "No chunks found for session s1")
           (ValueError "No chunks found for session s1") fs_boot fs_s1).
  - vm_compute. reflexivity.
  - vm_compute. reflexivity.
  - vm_compute. reflexivity.
  - vm_compute. reflexivity.
  - vm_compute. reflexivity.
  - reflexivity.
Qed.

Lemma same_but_refl qo fs : same_but qo fs fs.
Proof. by split_and!. Qed.

Lemma same_but_trans qo fs1 fs2 fs3 :
  same_but qo fs1 fs2 → same_but qo fs2 fs3 → same_but qo fs1 fs3.
Proof.
  intros (Hc1 & Hf1 & Hd1) (Hc2 & Hf2 & Hd2). split_and!.
  - congruence.
  - intros q Hq. rewrite Hf2, Hf1; done.
  - intros q. by rewrite Hd2, Hd1.
Qed.

Lemma same_but_insert_file qo fs c :
  tree fs !! qo ≠ Some Dir →
  same_but qo fs (Fsys (cwd fs) (<[qo := File c]> (tree fs))).
Proof.
  intros Hq. split_and!; [done|..].
  - intros q Hne. simpl. by rewrite lookup_insert_ne.
  - intros q. simpl. destruct (decide (qo = q)) as [<-|Hne].
    + rewrite lookup_insert_eq. split; [done|]. intros H. by destruct Hq.
    + by rewrite lookup_insert_ne.
Qed.

Lemma handle_write_same_but qo room data fs r fs' :
  handle_write qo room data fs = (r, fs') → same_but qo fs fs'.
Proof.
  unfold handle_write, bind, get_fs, put_tree, ret, raise.
  destruct (tree fs !! qo) as [[|[old|?]]|] eqn:Hq;
    try (intros [= <- <-]; apply same_but_refl).
  destruct room as [n|]; [case_decide|]; intros [= <- <-];
    apply same_but_insert_file; by rewrite Hq.
Qed.

Lemma read_bytes_pure jt p fs r fs' : read_bytes jt p fs = (r, fs') → fs' = fs.
Proof.
  unfold read_bytes, bind, get_fs, lift, ret, raise.
  destruct (locate fs p) as [q|e]; [|by intros [= _ <-]].
  destruct (tree fs !! q) as [[|[?|?]]|]; by intros [= _ <-].
Qed.

Lemma combine_loop_same_but jt qo chunks : ∀ total room fs r fs',
  combine_loop jt qo chunks total room fs = (r, fs') → same_but qo fs fs'.
Proof.
  induction chunks as [|p chunks IH]; intros total room fs r fs'; simpl.
  - intros [= _ <-]. apply same_but_refl.
  - unfold bind at 1.
    destruct (read_bytes jt p fs) as [[b|e] fs1] eqn:Hr;
      apply read_bytes_pure in Hr as ->; [|intros [= _ <-]; apply same_but_refl].
    unfold bind at 1.
    destruct (handle_write qo room b fs) as [[room'|e] fs2] eqn:Hw;
      apply handle_write_same_but in Hw.
    + intros Hrest%IH. by eapply same_but_trans.
    + by intros [= _ <-].
Qed.

Lemma open_w_cases p c fs :
  (∃ e, open_w p c fs = (Raises e, fs)) ∨
  (∃ q, locate fs p = Returns q ∧ tree fs !! q ≠ Some Dir ∧
        tree fs !! removelast q = Some Dir ∧
        open_w p c fs = (Returns q, Fsys (cwd fs) (<[q := File c]> (tree fs)))).
Proof.
  destruct (locate fs p) as [q|e] eqn:Hq.
  - destruct (tree fs !! removelast q) as [[|?]|] eqn:Hpar.
    + destruct (tree fs !! q) as [[|?]|] eqn:Hd.
      * left. eexists. by eapply open_w_is_dir.
      * right. exists q. split_and!; try done; [by rewrite Hd|].
        apply open_w_run; try done. by rewrite Hd.
      * right. exists q. split_and!; try done; [by rewrite Hd|].
        apply open_w_run; try done. by rewrite Hd.
    + left. unfold open_w, bind, get_fs, lift, raise. rewrite Hq, Hpar.
      destruct (tree fs !! q) as [[|?]|]; eauto.
    + left. unfold open_w, bind, get_fs, lift, raise. rewrite Hq, Hpar.
      destruct (tree fs !! q) as [[|?]|]; eauto.
  - left. unfold open_w, bind, get_fs, lift. rewrite Hq. eauto.
Qed.

Lemma get_chunks_pure (self : ChunkStorage) fs :
  ∃ l, get_chunks self fs = (Returns l, fs).
Proof.
  unfold get_chunks. erewrite bind_Returns by apply exists_run.
  destruct (negb _); [by eexists|].
  unfold bind, get_fs, ret. destruct (locate fs _); by eexists.
Qed.

Lemma get_metadata_pure (self : ChunkStorage) fs r fs' :
  get_metadata self fs = (r, fs') → fs' = fs.
Proof.
  rewrite get_metadata_run.
  destruct (stat fs _) as [[|[?|?]]|]; by intros [= _ <-].
Qed.

Lemma write_json_raises p j fs e fs' :
  write_json p j fs = (Raises e, fs') → fs' = fs.
Proof.
  unfold write_json.
  destruct (open_w_cases p (Json j) fs) as [[e' H]|(q & _ & _ & _ & H)].
  - rewrite (bind_Raises _ _ _ _ _ H). by intros [= _ <-].
  - rewrite (bind_Returns _ _ _ _ _ H). discriminate.
Qed.

(** Whatever makes [combine_chunks] fail, the state it leaves differs from
    the state before at most in the output file. *)
Lemma combine_chunks_raises jt self out room now fs e fs' :
  combine_chunks jt self out room now fs = (Raises e, fs') →
  fs' = fs ∨
  ∃ qo, locate fs out = Returns qo ∧ tree fs !! qo ≠ Some Dir ∧ same_but qo fs fs'.
Proof.
  unfold combine_chunks.
  destruct (get_chunks_pure self fs) as [l Hl].
  rewrite (bind_Returns _ _ _ _ _ Hl).
  destruct l as [|p l]; [by intros [= _ <-]; left|].
  destruct (open_w_cases out (Bytes []) fs) as [[e' H]|(qo & Hqo & Hnd & _ & H)].
  { rewrite (bind_Raises _ _ _ _ _ H). intros [= _ <-]. by left. }
  rewrite (bind_Returns _ _ _ _ _ H).
  pose proof (same_but_insert_file qo fs (Bytes []) Hnd) as Hs1.
  set (fs1 := Fsys (cwd fs) (<[qo := File (Bytes [])]> (tree fs))) in *.
  intros Hrun. right. exists qo. split_and!; try done.
  revert Hrun. unfold bind at 1.
  destruct (combine_loop jt qo (p :: l) 0 room fs1) as [[total|e1] fs2] eqn:Hloop;
    apply combine_loop_same_but in Hloop;
    pose proof (same_but_trans _ _ _ _ Hs1 Hloop) as Hs2;
    [|by intros [= _ <-]].
  unfold bind at 1.
  destruct (get_metadata self fs2) as [[j|e2] fs3] eqn:Hm;
    apply get_metadata_pure in Hm as ->; [|by intros [= _ <-]].
  unfold bind at 1.
  destruct (write_json _ _ fs2) as [[[]|e3] fs4] eqn:Hw; [discriminate|].
  apply write_json_raises in Hw as ->. by intros [= _ <-].
Qed.

Lemma merge_sort_perm (l1 l2 : list string) :
  l1 ≡ₚ l2 → merge_sort String.le l1 = merge_sort String.le l2.
Proof.
  intros Hp. apply (Sorted_unique String.le).
  - apply Sorted_merge_sort. apply _.
  - apply Sorted_merge_sort. apply _.
  - by rewrite !merge_sort_Permutation.
Qed.

Lemma filter_perm_listdir (t t' : gmap path node) d :
  (∀ n, is_Some (t' !! (d ++ [n])) ↔ is_Some (t !! (d ++ [n]))) →
  List.filter fnmatch_chunk (listdir t' d) ≡ₚ List.filter fnmatch_chunk (listdir t d).
Proof.
  intros H. apply NoDup_Permutation.
  - apply NoDup_ListNoDup, List.NoDup_filter, NoDup_ListNoDup, NoDup_listdir.
  - apply NoDup_ListNoDup, List.NoDup_filter, NoDup_ListNoDup, NoDup_listdir.
  - intros n. rewrite !list_elem_of_In, !filter_In, <- !list_elem_of_In.
    rewrite !elem_of_listdir. by rewrite H.
Qed.

Lemma locate_same_but qo fs fs' p d :
  same_but qo fs fs' → locate fs p = Returns d → locate fs' p = Returns d.
Proof.
  intros (Hc & _ & Hd). unfold locate. rewrite Hc. apply walk_mono.
  intros q. by rewrite Hd.
Qed.

Lemma sorted_chunks_agree (t t' : gmap path node) d :
  (∀ n, t' !! (d ++ [n]) = t !! (d ++ [n])) →
  merge_sort String.le (List.filter fnmatch_chunk (listdir t' d)) =
  merge_sort String.le (List.filter fnmatch_chunk (listdir t d)).
Proof.
  intros H. apply merge_sort_perm, filter_perm_listdir.
  intros n. by rewrite H.
Qed.

(** C6: when [combine_chunks] fails, in particular when a write to the
    output target fails partway, and the target lies outside the session
    directory, the session directory is as before: every entry of it, so
    every chunk file and the metadata record (which is therefore not marked
    finalised), and a retried combine lists the same chunks. *)
Theorem combine_failure_keeps_session jt sid out room now fs e fs' :
  stat fs (session_dir (ChunkStorage_init sid)) = Some Dir →
  outside fs out (session_dir (ChunkStorage_init sid)) →
  combine_chunks jt (ChunkStorage_init sid) out room now fs = (Raises e, fs') →
  stat fs' (session_dir (ChunkStorage_init sid)) = Some Dir ∧
  (∀ n, n ≠ ".." →
        stat fs' (child (session_dir (ChunkStorage_init sid)) n)
        = stat fs (child (session_dir (ChunkStorage_init sid)) n)) ∧
  (∀ i, stat fs' (session_dir (ChunkStorage_init sid) /: chunk_name i)
        = stat fs (session_dir (ChunkStorage_init sid) /: chunk_name i)) ∧
  stat fs' (metadata_file (ChunkStorage_init sid))
    = stat fs (metadata_file (ChunkStorage_init sid)) ∧
  ∃ chunks,
    get_chunks (ChunkStorage_init sid) fs = (Returns chunks, fs) ∧
    get_chunks (ChunkStorage_init sid) fs' = (Returns chunks, fs').
Proof.
  intros Hs Hout Hrun.
  destruct (stat_Dir _ _ Hs) as (d & Hd & Hdir).
  assert (locate fs' (session_dir (ChunkStorage_init sid)) = Returns d ∧
          tree fs' !! d = Some Dir ∧
          ∀ n, tree fs' !! (d ++ [n]) = tree fs !! (d ++ [n]))
    as (Hd' & Hdir' & Hchild).
  { destruct (combine_chunks_raises _ _ _ _ _ _ _ _ Hrun)
      as [->|(qo & Hqo & _ & Hsame)]; [done|].
    pose proof (locate_same_but _ _ _ _ _ Hsame Hd) as Hd'.
    destruct Hsame as (Hc & Hf & Hdirs). split_and!; [done|by apply Hdirs|].
    intros n. apply Hf. intros <-. apply (Hout _ _ Hqo Hd). by exists [n]. }
  assert (Hstat : ∀ n, n ≠ ".." →
            stat fs' (child (session_dir (ChunkStorage_init sid)) n)
            = stat fs (child (session_dir (ChunkStorage_init sid)) n)).
  { intros n Hn. by rewrite !(stat_child _ _ d). }
  split_and!.
  - unfold stat. by rewrite Hd'.
  - done.
  - intros i. rewrite chunk_file_child. apply Hstat, chunk_name_not_dotdot.
  - rewrite metadata_file_child. by apply Hstat.
  - eexists. split.
    + by eapply get_chunks_run.
    + erewrite get_chunks_run by done. by rewrite (sorted_chunks_agree (tree fs)).
Qed.

Lemma outside_srv_out fs :
  locate fs (Path "/srv/out.webm") = Returns ["srv"; "out.webm"] →
  locate fs (session_dir (ChunkStorage_init "s1"))
    = Returns ["srv"; "recording_chunks"; "s1"] →
  outside fs (Path "/srv/out.webm") (session_dir (ChunkStorage_init "s1")).
Proof.
  intros H1 H2 qo d. rewrite H1, H2. intros [= <-] [= <-] [k Hk]. discriminate.
Qed.

Lemma combine_failure_keeps_session_witness :
  let jt : jdict → list Byte.byte := λ _, [] in
  let s := ChunkStorage_init "s1" in
  let out := Path "/srv/out.webm" in
  let fs' := (combine_chunks jt s out (Some 2%nat) 3000 fs_s1_abc).2 in
  combine_chunks jt s out (Some 2%nat) 3000 fs_s1_abc = (Raises OSError, fs') ∧
  stat fs' out = Some (File (Bytes [Byte.x41; Byte.x42])) ∧
  stat fs' (session_dir s) = Some Dir ∧
  (∀ n, n ≠ ".." →
        stat fs' (child (session_dir s) n) = stat fs_s1_abc (child (session_dir s) n)) ∧
  (∀ i, stat fs' (session_dir s /: chunk_name i)
        = stat fs_s1_abc (session_dir s /: chunk_name i)) ∧
  stat fs' (metadata_file s) = stat fs_s1_abc (metadata_file s) ∧
  ∃ chunks,
    get_chunks s fs_s1_abc = (Returns chunks, fs_s1_abc) ∧
    get_chunks s fs' = (Returns chunks, fs').
Proof.
  intros jt s out fs'.
  assert (Hrun : combine_chunks jt s out (Some 2%nat) 3000 fs_s1_abc
                 = (Raises OSError, fs')) by (vm_compute; reflexivity).
  split; [exact Hrun|]. split; [vm_compute; reflexivity|].
  apply (combine_failure_keeps_session jt "s1" out (Some 2%nat) 3000
           fs_s1_abc OSError fs').
  - vm_compute. reflexivity.
  - apply outside_srv_out; vm_compute; reflexivity.
  - exact Hrun.
Defined.

Lemma handle_write_fits qo room data fs old :
  tree fs !! qo = Some (File (Bytes old)) →
  fits room (length data) →
  ∃ room',
    handle_write qo room data fs =
      (Returns room', Fsys (cwd fs) (<[qo := File (Bytes (old ++ data))]> (tree fs))) ∧
    ∀ n, fits room (length data + n) → fits room' n.
Proof.
  intros Hq Hfit. unfold handle_write, bind, get_fs, put_tree, ret. rewrite Hq.
  destruct room as [r|]; simpl in *.
  - rewrite decide_True by done. eexists. split; [done|]. simpl. lia.
  - eexists. split; [done|]. done.
Qed.

(** The loop over chunk files that hold bytes, with enough room in the
    target: the payloads are appended in the order of the list. *)
Lemma combine_loop_bytes jt c (sd : pypath) d qo :
  ∀ (items : list (string * list Byte.byte)) acc total room t,
  locate (Fsys c t) sd = Returns d →
  t !! d = Some Dir →
  t !! qo = Some (File (Bytes acc)) →
  (∀ n b, (n, b) ∈ items →
          n ≠ ".." ∧ d ++ [n] ≠ qo ∧ t !! (d ++ [n]) = Some (File (Bytes b))) →
  fits room (length (concat items.*2)) →
  combine_loop jt qo (child sd <$> items.*1) total room (Fsys c t) =
  (Returns (total + len (concat items.*2)),
   Fsys c (<[qo := File (Bytes (acc ++ concat items.*2))]> t)).
Proof.
  induction items as [|[n b] items IH]; intros acc total room t Hd Hdir Hq Hitems Hfit.
  - simpl. unfold ret, len. simpl. rewrite Z.add_0_r, app_nil_r.
    by rewrite insert_id.
  - cbn [fmap list_fmap fst snd concat combine_loop] in Hfit |- *.
    destruct (Hitems n b) as (Hn & Hne & Hb); [left|].
    erewrite bind_Returns; cycle 1.
    { apply read_bytes_run with (q := d ++ [n]); [|done].
      by apply locate_child. }
    rewrite length_app in Hfit.
    destruct (handle_write_fits qo room b (Fsys c t) acc Hq) as (room' & Hw & Hroom).
    { destruct room; simpl in *; lia. }
    erewrite bind_Returns by apply Hw. cbn [cwd tree].
    rewrite IH with (acc := acc ++ b).
    + f_equal.
      * f_equal. unfold len. rewrite length_app. lia.
      * f_equal. rewrite insert_insert_eq. by rewrite app_assoc.
    + apply (locate_mono (Fsys c t)); [|done].
      intros q. apply dirs_insert_file. cbn [tree]. by rewrite Hq.
    + apply dirs_insert_file; [by rewrite Hq|done].
    + by rewrite lookup_insert_eq.
    + intros n' b' Hin. destruct (Hitems n' b') as (? & ? & ?); [by right|].
      split_and!; try done. by rewrite lookup_insert_ne.
    + by apply Hroom.
Qed.

Lemma three_names_sorted :
  Sorted String.le [chunk_name 0; chunk_name 1; chunk_name 2].
Proof. apply (bool_decide_unpack _). vm_compute. reflexivity. Qed.

Lemma three_names_NoDup : NoDup [chunk_name 0; chunk_name 1; chunk_name 2].
Proof. apply (bool_decide_unpack _). vm_compute. reflexivity. Qed.

Lemma three_names_match n :
  n ∈ [chunk_name 0; chunk_name 1; chunk_name 2] → fnmatch_chunk n = true.
Proof.
  intros H. repeat (apply elem_of_cons in H as [->|H]; [reflexivity|]).
  by apply elem_of_nil in H.
Qed.

(** C2: for a session whose chunk files are exactly those of the indices
    0, 1, 2, with payloads [A], [B], [C], and an output target that can be
    written, lies outside the session directory and has room for the bytes,
    [combine_chunks] returns with [chunks_combined = 3] and
    [total_size = len(A‖B‖C)], the output file holds exactly [A‖B‖C], the
    record is marked finalised and the chunk files are as before. *)
Theorem combine_three_chunks jt sid out room now fs j A B C :
  stat fs (session_dir (ChunkStorage_init sid)) = Some Dir →
  stat fs (session_dir (ChunkStorage_init sid) /: chunk_name 0) = Some (File (Bytes A)) →
  stat fs (session_dir (ChunkStorage_init sid) /: chunk_name 1) = Some (File (Bytes B)) →
  stat fs (session_dir (ChunkStorage_init sid) /: chunk_name 2) = Some (File (Bytes C)) →
  (∀ n, fnmatch_chunk n = true →
        stat fs (child (session_dir (ChunkStorage_init sid)) n) ≠ None →
        n ∈ [chunk_name 0; chunk_name 1; chunk_name 2]) →
  stat fs (metadata_file (ChunkStorage_init sid)) = Some (File (Json j)) →
  writable fs out →
  outside fs out (session_dir (ChunkStorage_init sid)) →
  fits room (length (A ++ B ++ C)) →
  ∃ r fs',
    combine_chunks jt (ChunkStorage_init sid) out room now fs = (Returns r, fs') ∧
    stat fs' out = Some (File (Bytes (A ++ B ++ C))) ∧
    r !! "chunks_combined" = Some (JInt 3) ∧
    r !! "total_size" = Some (JInt (len (A ++ B ++ C))) ∧
    stat fs' (metadata_file (ChunkStorage_init sid))
      = Some (File (Json (finalized_metadata j out now))) ∧
    finalized_metadata j out now !! "finalized" = Some (JBool true) ∧
    stat fs' (session_dir (ChunkStorage_init sid) /: chunk_name 0) = Some (File (Bytes A)) ∧
    stat fs' (session_dir (ChunkStorage_init sid) /: chunk_name 1) = Some (File (Bytes B)) ∧
    stat fs' (session_dir (ChunkStorage_init sid) /: chunk_name 2) = Some (File (Bytes C)).
Proof.
  intros (d & Hd & Hdir)%stat_Dir HA HB HC Honly Hmeta (qo & Hqo & Hqnd & Hqpar)
    Hout Hfit.
  set (self := ChunkStorage_init sid) in *.
  rewrite chunk_file_child in HA, HB, HC.
  rewrite (stat_child _ _ d) in HA, HB, HC by auto using chunk_name_not_dotdot.
  unfold self in Hmeta. rewrite metadata_file_child in Hmeta. fold self in Hmeta.
  rewrite (stat_child _ _ d) in Hmeta by done.
  pose proof (Hout _ _ Hqo Hd) as Hpre.
  assert (Hne : ∀ n, d ++ [n] ≠ qo).
  { intros n <-. apply Hpre. by exists [n]. }
  (* the listing *)
  assert (Hnames : merge_sort String.le
            (List.filter fnmatch_chunk (listdir (tree fs) d))
          = [chunk_name 0; chunk_name 1; chunk_name 2]).
  { apply (Sorted_unique String.le).
    - apply Sorted_merge_sort. apply _.
    - apply three_names_sorted.
    - rewrite merge_sort_Permutation. apply NoDup_Permutation.
      + apply NoDup_ListNoDup, List.NoDup_filter, NoDup_ListNoDup, NoDup_listdir.
      + apply three_names_NoDup.
      + intros n. rewrite list_elem_of_In, filter_In, <- list_elem_of_In.
        rewrite elem_of_listdir. split.
        * intros [([x Hx] & _ & Hdd) Hm]. apply Honly; [done|].
          rewrite (stat_child _ _ d) by done. by rewrite Hx.
        * intros Hin. pose proof (three_names_match n Hin) as Hm.
          destruct (fnmatch_chunk_not_dots n Hm). split_and!; try done.
          repeat (apply elem_of_cons in Hin as [->|Hin]; [by eexists|]).
          by apply elem_of_nil in Hin. }
  set (items := [(chunk_name 0, A); (chunk_name 1, B); (chunk_name 2, C)]).
  set (t1 := <[qo := File (Bytes [])]> (tree fs)).
  set (t2 := <[qo := File (Bytes ([] ++ concat items.*2))]> t1).
  set (t3 := <[d ++ ["metadata.json"] := File (Json (finalized_metadata j out now))]> t2).
  assert (Hdirs1 : ∀ q, tree fs !! q = Some Dir → t1 !! q = Some Dir).
  { intros q. by apply dirs_insert_file. }
  assert (Hdirs2 : ∀ q, tree fs !! q = Some Dir → t2 !! q = Some Dir).
  { intros q Hq. apply dirs_insert_file; [|by apply Hdirs1].
    unfold t1. by rewrite lookup_insert_eq. }
  assert (Hchild2 : ∀ n, t2 !! (d ++ [n]) = tree fs !! (d ++ [n])).
  { intros n. unfold t2, t1. by rewrite !lookup_insert_ne. }
  assert (Hrun : combine_chunks jt self out room now fs =
            (Returns (<["chunks_combined" := JInt 3]>
                      (<["total_size" := JInt (0 + len (concat items.*2))]>
                      (<["output_file" := JStr (path_str out)]>
                      (<["session_id" := JStr sid]> ∅)))),
             Fsys (cwd fs) t3)).
  { unfold combine_chunks.
    erewrite bind_Returns by (by eapply get_chunks_run).
    rewrite Hnames. cbn [fmap list_fmap].
    erewrite bind_Returns by (by apply open_w_run).
    fold t1.
    change (child (session_dir self) (chunk_name 0)
            :: child (session_dir self) (chunk_name 1)
            :: child (session_dir self) (chunk_name 2) :: [])
      with (child (session_dir self) <$> items.*1).
    erewrite bind_Returns; cycle 1.
    { apply combine_loop_bytes with (d := d) (acc := []).
      - by apply locate_mono.
      - by apply Hdirs1.
      - unfold t1. by rewrite lookup_insert_eq.
      - intros n b Hin. unfold t1. rewrite lookup_insert_ne by done.
        split_and!; [|done|].
        + apply list_elem_of_fmap_2 with (f := fst) in Hin.
          destruct (fnmatch_chunk_not_dots n (three_names_match n Hin)). done.
        + unfold items in Hin.
          repeat (apply elem_of_cons in Hin as [[= -> ->]|Hin]; [done|]).
          by apply elem_of_nil in Hin.
      - simpl. by rewrite app_nil_r. }
    fold t2.
    erewrite bind_Returns; cycle 1.
    { rewrite get_metadata_run. unfold self. rewrite metadata_file_child.
      rewrite (stat_child _ _ d); [|by apply locate_mono|by apply Hdirs2|done].
      cbn [tree]. rewrite Hchild2, Hmeta. done. }
    erewrite bind_Returns; cycle 1.
    { apply write_json_run with (q := d ++ ["metadata.json"]).
      - unfold self. rewrite metadata_file_child.
        apply locate_child; [by apply locate_mono|by apply Hdirs2|done].
      - cbn [tree]. by rewrite Hchild2, Hmeta.
      - cbn [tree]. rewrite removelast_snoc. by apply Hdirs2. }
    done. }
  assert (Hd3 : locate (Fsys (cwd fs) t3) (session_dir self) = Returns d).
  { apply locate_mono; [|done]. intros q Hq. apply dirs_insert_file.
    - by rewrite Hchild2, Hmeta.
    - by apply Hdirs2. }
  assert (Hdir3 : t3 !! d = Some Dir).
  { apply dirs_insert_file; [by rewrite Hchild2, Hmeta|by apply Hdirs2]. }
  assert (Hchunk3 : ∀ i, t3 !! (d ++ [chunk_name i]) = tree fs !! (d ++ [chunk_name i])).
  { intros i. unfold t3. rewrite lookup_insert_ne; [apply Hchild2|].
    intros Heq%app_inv_head. apply (chunk_name_not_metadata i). congruence. }
  eexists _, _. split; [exact Hrun|]. split_and!.
  - unfold stat.
    assert (locate (Fsys (cwd fs) t3) out = Returns qo) as ->.
    { apply locate_mono; [|done]. intros q Hq. apply dirs_insert_file.
      - by rewrite Hchild2, Hmeta.
      - by apply Hdirs2. }
    cbn [tree]. unfold t3. rewrite lookup_insert_ne by done.
    unfold t2. rewrite lookup_insert_eq. simpl. by rewrite app_nil_r.
  - done.
  - rewrite lookup_insert_ne by done. rewrite lookup_insert_eq.
    simpl. by rewrite app_nil_r.
  - unfold self. rewrite metadata_file_child. rewrite (stat_child _ _ d) by done.
    cbn [tree]. unfold t3. by rewrite lookup_insert_eq.
  - unfold finalized_metadata. rewrite !lookup_insert_ne by done.
    by rewrite lookup_insert_eq.
  - rewrite chunk_file_child, (stat_child _ _ d) by auto using chunk_name_not_dotdot.
    cbn [tree]. by rewrite Hchunk3.
  - rewrite chunk_file_child, (stat_child _ _ d) by auto using chunk_name_not_dotdot.
    cbn [tree]. by rewrite Hchunk3.
  - rewrite chunk_file_child, (stat_child _ _ d) by auto using chunk_name_not_dotdot.
    cbn [tree]. by rewrite Hchunk3.
Qed.

Lemma fs_s1_abc_tree :
  ∃ jm,
    tree fs_s1_abc =
    <[["srv"; "recording_chunks"; "s1"; "metadata.json"] := File (Json jm)]>
    (<[["srv"; "recording_chunks"; "s1"; "chunk_000001.webm"] :=
         File (Bytes [Byte.x42; Byte.x43])]>
    (<[["srv"; "recording_chunks"; "s1"; "chunk_000000.webm"] :=
         File (Bytes [Byte.x41])]>
    (<[["srv"; "recording_chunks"; "s1"; "chunk_000002.webm"] :=
         File (Bytes [Byte.x44])]>
    (<[["srv"; "recording_chunks"; "s1"] := Dir]> (tree fs_boot))))).
Proof.
  exists (match tree fs_s1_abc
                  !! ["srv"; "recording_chunks"; "s1"; "metadata.json"] with
          | Some (File (Json jm)) => jm
          | _ => ∅
          end).
  lazymatch goal with
  | |- ?G => exact (eq_refl (tree fs_s1_abc) <: G)
  end.
Qed.

Lemma fs_s1_abc_chunks n :
  fnmatch_chunk n = true →
  stat fs_s1_abc (child (session_dir (ChunkStorage_init "s1")) n) ≠ None →
  n ∈ [chunk_name 0; chunk_name 1; chunk_name 2].
Proof.
  intros Hm. destruct (fnmatch_chunk_not_dots n Hm) as [_ Hdd].
  rewrite (stat_child _ _ ["srv"; "recording_chunks"; "s1"]);
    [|vm_compute; reflexivity|vm_compute; reflexivity|done].
  destruct fs_s1_abc_tree as [jm ->]. simpl app.
  assert (n ≠ "metadata.json") by (intros ->; discriminate).
  rewrite lookup_insert_ne by congruence.
  destruct (decide (n = "chunk_000001.webm")) as [->|?]; [set_solver|].
  rewrite lookup_insert_ne by congruence.
  destruct (decide (n = "chunk_000000.webm")) as [->|?]; [set_solver|].
  rewrite lookup_insert_ne by congruence.
  destruct (decide (n = "chunk_000002.webm")) as [->|?]; [set_solver|].
  rewrite lookup_insert_ne by congruence.
  unfold fs_boot. cbn [tree].
  rewrite !lookup_insert_ne by congruence. by rewrite lookup_empty.
Qed.

Lemma combine_three_chunks_witness :
  let jt : jdict → list Byte.byte := λ _, [] in
  let s := ChunkStorage_init "s1" in
  let out := Path "/srv/out.webm" in
  let j := match stat fs_s1_abc (metadata_file s) with
           | Some (File (Json j)) => j
           | _ => ∅
           end in
  let A := [Byte.x41] in
  let B := [Byte.x42; Byte.x43] in
  let C := [Byte.x44] in
  ∃ r fs',
    combine_chunks jt s out None 3000 fs_s1_abc = (Returns r, fs') ∧
    stat fs' out = Some (File (Bytes (A ++ B ++ C))) ∧
    r !! "chunks_combined" = Some (JInt 3) ∧
    r !! "total_size" = Some (JInt (len (A ++ B ++ C))) ∧
    stat fs' (metadata_file s) = Some (File (Json (finalized_metadata j out 3000))) ∧
    finalized_metadata j out 3000 !! "finalized" = Some (JBool true) ∧
    stat fs' (session_dir s /: chunk_name 0) = Some (File (Bytes A)) ∧
    stat fs' (session_dir s /: chunk_name 1) = Some (File (Bytes B)) ∧
    stat fs' (session_dir s /: chunk_name 2) = Some (File (Bytes C)).
Proof.
  intros jt s out j A B C.
  apply (combine_three_chunks jt "s1" out None 3000 fs_s1_abc j A B C).
  - vm_compute. reflexivity.
  - vm_compute. reflexivity.
  - vm_compute. reflexivity.
  - vm_compute. reflexivity.
  - apply fs_s1_abc_chunks.
  - vm_compute. reflexivity.
  - exists ["srv"; "out.webm"]. split_and!.
    + vm_compute. reflexivity.
    + vm_compute. discriminate.
    + vm_compute. reflexivity.
  - apply outside_srv_out; vm_compute; reflexivity.
  - exact I.
Defined.

(** ** The footprint of a session *)

Lemma locate_session_plain sid fs name q :
  plain_segment sid = true → name ≠ ".." →
  locate fs (child (session_dir (ChunkStorage_init sid)) name) = Returns q →
  q = storage_root fs ++ [sid; name].
Proof.
  intros Hp Hn. rewrite (session_dir_plain sid Hp). unfold locate, child. simpl parts.
  cbn [anchored]. intros ->%walk_no_dotdot.
  - unfold storage_root. by rewrite <- app_assoc.
  - destruct (plain_segment_spec _ Hp) as (_ & _ & _ & ?).
    repeat constructor; done.
Qed.

Lemma locate_session_dir_plain sid fs q :
  plain_segment sid = true →
  locate fs (session_dir (ChunkStorage_init sid)) = Returns q →
  q = storage_root fs ++ [sid].
Proof.
  intros Hp. rewrite (session_dir_plain sid Hp). unfold locate. simpl parts.
  cbn [anchored]. intros ->%walk_no_dotdot.
  - unfold storage_root. by rewrite <- app_assoc.
  - destruct (plain_segment_spec _ Hp) as (_ & _ & _ & ?).
    repeat constructor; done.
Qed.

Lemma changes_within_refl base fs : changes_within base fs fs.
Proof. by split. Qed.

Lemma changes_within_trans base fs1 fs2 fs3 :
  changes_within base fs1 fs2 → changes_within base fs2 fs3 →
  changes_within base fs1 fs3.
Proof.
  intros [Hc1 Hf1] [Hc2 Hf2]. split; [congruence|].
  intros q Hq. by rewrite Hf2, Hf1.
Qed.

Lemma changes_within_insert base fs q x :
  base `prefix_of` q → changes_within base fs (Fsys (cwd fs) (<[q := x]> (tree fs))).
Proof.
  intros Hq. split; [done|]. intros k Hk. simpl.
  rewrite lookup_insert_ne; [done|]. by intros ->.
Qed.

Lemma changes_within_emptied base fs q :
  base `prefix_of` q →
  changes_within base fs
    (Fsys (cwd fs) (filter (λ kv, ¬ strictly_below q kv.1) (tree fs))).
Proof.
  intros Hq. split; [done|]. intros k Hk. simpl. rewrite lookup_emptied.
  rewrite decide_False; [done|]. intros [Hqk _]. apply Hk. by etrans.
Qed.

Lemma changes_within_delete base fs q :
  base `prefix_of` q →
  changes_within base fs (Fsys (cwd fs) (delete q (tree fs))).
Proof.
  intros Hq. split; [done|]. intros k Hk. simpl.
  rewrite lookup_delete_ne; [done|]. by intros ->.
Qed.

Lemma rmdir_within base p fs r fs' :
  (∀ q, locate fs p = Returns q → base `prefix_of` q) →
  rmdir p fs = (r, fs') → changes_within base fs fs'.
Proof.
  intros Hbase. unfold rmdir, bind, get_fs, lift, put_tree, raise.
  destruct (locate fs p) as [q|e] eqn:Hq; [|intros [= _ <-]; apply changes_within_refl].
  destruct (tree fs !! q) as [[|?]|]; try (intros [= _ <-]; apply changes_within_refl).
  destruct (ends_in_dotdot p); [intros [= _ <-]; apply changes_within_refl|].
  destruct q as [|x q']; [intros [= _ <-]; apply changes_within_refl|].
  destruct (listdir _ _); intros [= _ <-]; [|apply changes_within_refl].
  apply changes_within_delete. by apply Hbase.
Qed.

Lemma rmtree_within base p fs r fs' :
  (∀ fs0 q, cwd fs0 = cwd fs → locate fs0 p = Returns q → base `prefix_of` q) →
  rmtree p fs = (r, fs') → changes_within base fs fs'.
Proof.
  intros Hbase. unfold rmtree. unfold bind at 1, get_fs. unfold bind at 1, lift.
  destruct (locate fs p) as [q|e] eqn:Hq; [|intros [= _ <-]; apply changes_within_refl].
  destruct (tree fs !! q) as [[|?]|]; try (intros [= _ <-]; apply changes_within_refl).
  unfold bind at 1, put_tree. intros Hrm.
  eapply changes_within_trans.
  - apply (changes_within_emptied base fs q). by apply (Hbase fs).
  - eapply rmdir_within; [|exact Hrm]. intros q'. by apply Hbase.
Qed.

Lemma mkdir_exist_ok_cases p fs r fs' :
  mkdir_exist_ok p fs = (r, fs') →
  fs' = fs ∨ ∃ q, locate fs p = Returns q ∧ fs' = Fsys (cwd fs) (<[q := Dir]> (tree fs)).
Proof.
  unfold mkdir_exist_ok, bind, get_fs, lift, put_tree, ret, raise.
  destruct (locate fs p) as [q|e]; [|intros [= _ <-]; by left].
  destruct (tree fs !! q) as [[|?]|]; try (intros [= _ <-]; by left).
  destruct (tree fs !! removelast q) as [[|?]|]; try (intros [= _ <-]; by left).
  intros [= _ <-]. right. eauto.
Qed.

Lemma open_w_within base p c fs r fs' :
  (∀ q, locate fs p = Returns q → base `prefix_of` q) →
  open_w p c fs = (r, fs') → changes_within base fs fs'.
Proof.
  intros Hbase.
  destruct (open_w_cases p c fs) as [[e ->]|(q & Hq & _ & _ & ->)];
    intros [= _ <-]; [apply changes_within_refl|].
  apply changes_within_insert. by apply Hbase.
Qed.

Lemma write_json_within base p j fs r fs' :
  (∀ q, locate fs p = Returns q → base `prefix_of` q) →
  write_json p j fs = (r, fs') → changes_within base fs fs'.
Proof.
  intros Hbase. unfold write_json, bind.
  destruct (open_w p (Json j) fs) as [[q|e] fs1] eqn:Ho;
    apply (open_w_within base) in Ho; try done; by intros [= _ <-].
Qed.

Lemma prefix_session sid fs name :
  (storage_root fs ++ [sid]) `prefix_of` (storage_root fs ++ [sid; name]).
Proof. exists [name]. by rewrite <- app_assoc. Qed.

Lemma initialize_session_within sid fs mime now r fs' :
  plain_segment sid = true →
  initialize_session (ChunkStorage_init sid) mime now fs = (r, fs') →
  changes_within (storage_root fs ++ [sid]) fs fs'.
Proof.
  intros Hp. unfold initialize_session, bind at 1.
  destruct (mkdir_exist_ok _ fs) as [[[]|e] fs1] eqn:Hm;
    apply mkdir_exist_ok_cases in Hm.
  - assert (changes_within (storage_root fs ++ [sid]) fs fs1 ∧ cwd fs1 = cwd fs)
      as [H1 Hc].
    { destruct Hm as [->|(q & Hq & ->)]; [split; [apply changes_within_refl|done]|].
      split; [|done]. apply changes_within_insert.
      by rewrite (locate_session_dir_plain sid fs q). }
    intros Hw. eapply changes_within_trans; [exact H1|].
    eapply write_json_within; [|exact Hw].
    intros q Hq. rewrite metadata_file_child in Hq.
    apply locate_session_plain in Hq as ->; [|done..].
    unfold storage_root. rewrite Hc. apply prefix_session.
  - intros [= _ <-].
    destruct Hm as [->|(q & Hq & ->)]; [apply changes_within_refl|].
    apply changes_within_insert. by rewrite (locate_session_dir_plain sid fs q).
Qed.

Lemma save_chunk_within sid fs i data now r fs' :
  plain_segment sid = true →
  save_chunk (ChunkStorage_init sid) i data now fs = (r, fs') →
  changes_within (storage_root fs ++ [sid]) fs fs'.
Proof.
  intros Hp. unfold save_chunk.
  erewrite bind_Returns by apply exists_run.
  destruct (negb _); [intros [= _ <-]; apply changes_within_refl|].
  unfold write_bytes, bind at 1. unfold bind at 1.
  destruct (open_w _ (Bytes data) fs) as [[q1|e] fs1] eqn:Ho.
  2: { intros [= _ <-]. eapply open_w_within; [|exact Ho].
       intros q Hq. rewrite chunk_file_child in Hq.
       apply locate_session_plain in Hq as ->; auto using chunk_name_not_dotdot.
       apply prefix_session. }
  assert (changes_within (storage_root fs ++ [sid]) fs fs1) as H1.
  { eapply open_w_within; [|exact Ho].
    intros q Hq. rewrite chunk_file_child in Hq.
    apply locate_session_plain in Hq as ->; auto using chunk_name_not_dotdot.
    apply prefix_session. }
  cbn [ret]. unfold bind at 1.
  destruct (get_metadata _ fs1) as [[j|e] fs2] eqn:Hg;
    apply get_metadata_pure in Hg as ->; [|by intros [= _ <-]].
  unfold bind at 1, lift.
  destruct (py_iadd _ _ _) as [tot|e]; [|by intros [= _ <-]].
  unfold bind at 1.
  destruct (write_json _ _ fs1) as [[[]|e] fs3] eqn:Hw.
  all: intros [= _ <-]; eapply changes_within_trans; [exact H1|].
  all: eapply write_json_within; [|exact Hw].
  all: intros q Hq; rewrite metadata_file_child in Hq.
  all: apply locate_session_plain in Hq as ->; [|done..].
  all: destruct H1 as [Hc _]; unfold storage_root; rewrite Hc; apply prefix_session.
Qed.

Lemma cleanup_within sid fs r fs' :
  plain_segment sid = true →
  cleanup (ChunkStorage_init sid) fs = (r, fs') →
  changes_within (storage_root fs ++ [sid]) fs fs'.
Proof.
  intros Hp. unfold cleanup.
  erewrite bind_Returns by apply exists_run.
  destruct (is_some _); [|intros [= _ <-]; apply changes_within_refl].
  apply rmtree_within. intros fs0 q Hc Hq.
  apply locate_session_dir_plain in Hq as ->; [|done].
  unfold storage_root. by rewrite Hc.
Qed.

(** C4 (amended): the session id is joined to the storage root as it is
    given, without validation.  For an id that is one plain path segment
    (not empty, no ["/"], neither ["."] nor [".."]) the session directory is
    [<root>/<id>] and whatever [initialize_session], [save_chunk] and
    [cleanup] do, whether they return or raise, they change nothing outside
    that directory. *)
Theorem plain_session_id_confined sid fs :
  plain_segment sid = true →
  session_dir (ChunkStorage_init sid) = Path_ false ["recording_chunks"; sid] ∧
  (∀ q, locate fs (session_dir (ChunkStorage_init sid)) = Returns q →
        q = storage_root fs ++ [sid]) ∧
  (∀ mime now r fs',
     initialize_session (ChunkStorage_init sid) mime now fs = (r, fs') →
     changes_within (storage_root fs ++ [sid]) fs fs') ∧
  (∀ i data now r fs',
     save_chunk (ChunkStorage_init sid) i data now fs = (r, fs') →
     changes_within (storage_root fs ++ [sid]) fs fs') ∧
  (∀ r fs',
     cleanup (ChunkStorage_init sid) fs = (r, fs') →
     changes_within (storage_root fs ++ [sid]) fs fs').
Proof.
  intros Hp. split_and!.
  - by apply session_dir_plain.
  - intros q. by apply locate_session_dir_plain.
  - intros mime now r fs'. by apply initialize_session_within.
  - intros i data now r fs'. by apply save_chunk_within.
  - intros r fs'. by apply cleanup_within.
Qed.

Lemma plain_session_id_confined_witness :
  session_dir (ChunkStorage_init "s1") = Path_ false ["recording_chunks"; "s1"] ∧
  (∀ q, locate fs_boot (session_dir (ChunkStorage_init "s1")) = Returns q →
        q = storage_root fs_boot ++ ["s1"]) ∧
  (∀ mime now r fs',
     initialize_session (ChunkStorage_init "s1") mime now fs_boot = (r, fs') →
     changes_within (storage_root fs_boot ++ ["s1"]) fs_boot fs') ∧
  (∀ i data now r fs',
     save_chunk (ChunkStorage_init "s1") i data now fs_boot = (r, fs') →
     changes_within (storage_root fs_boot ++ ["s1"]) fs_boot fs') ∧
  (∀ r fs',
     cleanup (ChunkStorage_init "s1") fs_boot = (r, fs') →
     changes_within (storage_root fs_boot ++ ["s1"]) fs_boot fs').
Proof. apply (plain_session_id_confined "s1" fs_boot). reflexivity. Defined.

(** C4 as stated fails: the id ["../evil"] is not rejected;
    [initialize_session] returns and has created the directory [/srv/evil],
    outside the storage root [/srv/recording_chunks]. *)
Lemma session_id_not_validated :
  ¬ (∀ sid mime now fs r fs',
       initialize_session (ChunkStorage_init sid) mime now fs = (r, fs') →
       changes_within (storage_root fs) fs fs').
Proof.
  intros H.
  destruct (initialize_session (ChunkStorage_init "../evil") "audio/webm" 1000 fs_boot)
    as [r fs'] eqn:Hrun.
  destruct (H _ _ _ _ _ _ Hrun) as [_ Hf].
  specialize (Hf ["srv"; "evil"]).
  assert (tree fs' !! ["srv"; "evil"] = Some Dir) as Hdir.
  { change fs' with (r, fs').2. rewrite <- Hrun. vm_compute. reflexivity. }
  rewrite Hdir in Hf.
  assert (Some Dir = tree fs_boot !! ["srv"; "evil"]) as Hbad.
  { apply Hf. intros [k Hk]. discriminate. }
  vm_compute in Hbad. discriminate.
Qed.

(** ** Binary64 arithmetic *)

Section binary64_facts.
Local Open Scope Q_scope.

Lemma pow2_pos e : 0 < pow2 e.
Proof. apply Qpower_0_lt. reflexivity. Qed.

Lemma pow2_add a b : pow2 (a + b) == pow2 a * pow2 b.
Proof. apply Qpower_plus. discriminate. Qed.

Lemma pow2_le a b : (a <= b)%Z → pow2 a <= pow2 b.
Proof. intros. apply Qpower_le_compat_l; [done|]. discriminate. Qed.

Lemma pow2_lt a b : (a < b)%Z → pow2 a < pow2 b.
Proof. intros. apply Qpower_lt_compat_l; [done|]. reflexivity. Qed.

Lemma pow2_inject k : (0 <= k)%Z → pow2 k == inject_Z (2 ^ k).
Proof. intros. unfold pow2. by rewrite Zpower_Qpower. Qed.

Lemma pow2_succ a : pow2 (a + 1) == 2 * pow2 a.
Proof. rewrite pow2_add. unfold pow2 at 2. simpl. lra. Qed.



Lemma pow2_lt_inv a b : pow2 a < pow2 b → (a < b)%Z.
Proof. intros. eapply Qpower_lt_compat_l_inv; [done|]. reflexivity. Qed.

Lemma inject_Z_pos n : (0 < n)%Z → 0 < inject_Z n.
Proof. intros. change 0 with (inject_Z 0). by rewrite <- Zlt_Qlt. Qed.

Lemma ilog2_spec v : 0 < v → pow2 (ilog2 v) <= v ∧ v < pow2 (ilog2 v + 1).
Proof.
  intros Hv. destruct v as [n d]. unfold ilog2. cbn [Qnum Qden].
  assert (0 < n)%Z as Hn.
  { unfold Qlt in Hv. simpl in Hv. lia. }
  set (ln := Z.log2 n). set (ld := Z.log2 (Z.pos d)).
  destruct (Z.log2_spec n Hn) as [Hn1 Hn2]. fold ln in Hn1, Hn2.
  destruct (Z.log2_spec (Z.pos d) ltac:(done)) as [Hd1 Hd2]. fold ld in Hd1, Hd2.
  assert (0 <= ln)%Z by apply Z.log2_nonneg.
  assert (0 <= ld)%Z by apply Z.log2_nonneg.
  set (N := inject_Z n). set (D := inject_Z (Z.pos d)).
  assert (HD : 0 < D) by by apply inject_Z_pos.
  assert (Hv' : n # d == N / D) by apply Qmake_Qdiv.
  assert (HN1 : pow2 ln <= N).
  { rewrite pow2_inject by done. unfold N. by rewrite <- Zle_Qle. }
  assert (HN2 : N < pow2 (ln + 1)).
  { rewrite pow2_inject by lia. unfold N. by rewrite <- Zlt_Qlt. }
  assert (HD1 : pow2 ld <= D).
  { rewrite pow2_inject by done. unfold D. by rewrite <- Zle_Qle. }
  assert (HD2 : D < pow2 (ld + 1)).
  { rewrite pow2_inject by lia. unfold D. by rewrite <- Zlt_Qlt. }
  set (k := (ln - ld)%Z).
  destruct (Qle_bool (pow2 k) (n # d)) eqn:Hk.
  - apply Qle_bool_iff in Hk. split; [done|].
    rewrite Hv'. apply Qlt_shift_div_r; [done|].
    eapply Qlt_le_trans; [exact HN2|].
    assert (pow2 (ln + 1) == pow2 (k + 1) * pow2 ld) as ->.
    { rewrite <- pow2_add. by replace (k + 1 + ld)%Z with (ln + 1)%Z by lia. }
    apply Qmult_le_l; [apply pow2_pos|done].
  - assert (¬ pow2 k <= n # d) as Hk'.
    { intros Hle. apply Qle_bool_iff in Hle. congruence. }
    apply Qnot_le_lt in Hk'. split.
    + rewrite Hv'. apply Qle_shift_div_l; [done|].
      eapply Qle_trans; [|exact HN1].
      assert (pow2 ln == pow2 (k - 1) * pow2 (ld + 1)) as ->.
      { rewrite <- pow2_add. by replace (k - 1 + (ld + 1))%Z with ln by lia. }
      apply Qmult_le_l; [apply pow2_pos|]. by apply Qlt_le_weak.
    + by replace (k - 1 + 1)%Z with k by lia.
Qed.

Lemma ilog2_unique v L : pow2 L <= v → v < pow2 (L + 1) → ilog2 v = L.
Proof.
  intros H1 H2.
  assert (0 < v) as Hv by (eapply Qlt_le_trans; [apply (pow2_pos L)|done]).
  destruct (ilog2_spec v Hv) as [H3 H4].
  assert (pow2 L < pow2 (ilog2 v + 1)) as Ha by (eapply Qle_lt_trans; done).
  assert (pow2 (ilog2 v) < pow2 (L + 1)) as Hb by (eapply Qle_lt_trans; done).
  apply pow2_lt_inv in Ha, Hb. lia.
Qed.

(** *** Rounding to an integer *)

Lemma rne_cases r :
  (rne r = Qfloor r ∧ r - inject_Z (Qfloor r) <= 1 # 2) ∨
  (rne r = (Qfloor r + 1)%Z ∧ 1 # 2 <= r - inject_Z (Qfloor r)).
Proof.
  unfold rne. destruct (Qcompare_spec (r - inject_Z (Qfloor r)) (1 # 2)) as [H|H|H].
  - destruct (Z.even _); [left|right]; split; try done; rewrite H; apply Qle_refl.
  - left. split; [done|]. by apply Qlt_le_weak.
  - right. split; [done|]. by apply Qlt_le_weak.
Qed.


Lemma rne_ge r m : inject_Z m <= r → (m <= rne r)%Z.
Proof.
  intros H. assert (m <= Qfloor r)%Z.
  { rewrite <- (Qfloor_Z m). by apply Qfloor_resp_le. }
  destruct (rne_cases r) as [[-> _]|[-> _]]; lia.
Qed.

Lemma rne_le r m : r <= inject_Z m → (rne r <= m)%Z.
Proof.
  intros H. pose proof (Qfloor_le r) as Hf.
  assert (Qfloor r <= m)%Z.
  { rewrite Zle_Qle. by eapply Qle_trans. }
  destruct (rne_cases r) as [[-> _]|[-> Hhalf]]; [done|].
  destruct (Z.eq_dec (Qfloor r) m) as [Heq|?]; [|lia].
  exfalso. rewrite Heq in Hhalf. lra.
Qed.


(** *** Rounding a positive number *)

Lemma round64_pos_lower v : 0 < v → pow2 (ilog2 v) <= round64_pos v.
Proof.
  intros Hv. destruct (ilog2_spec v Hv) as [H1 _].
  unfold round64_pos. set (e := (ilog2 v - 52)%Z).
  assert (pow2 (ilog2 v) == inject_Z (2 ^ 52) * pow2 e) as ->.
  { rewrite <- pow2_inject by done. rewrite <- pow2_add.
    by replace (52 + e)%Z with (ilog2 v) by lia. }
  apply Qmult_le_r; [apply pow2_pos|].
  rewrite <- Zle_Qle. apply rne_ge.
  apply Qle_shift_div_l; [apply pow2_pos|].
  rewrite <- pow2_inject by done. rewrite <- pow2_add.
  by replace (52 + e)%Z with (ilog2 v) by lia.
Qed.


(** An integer scaled into the binade of exponent [e <= 0]. *)
Lemma scaled_integer n e :
  (e <= 0)%Z → inject_Z n / pow2 e == inject_Z (n * 2 ^ (- e)).
Proof.
  intros He. rewrite inject_Z_mult. rewrite <- pow2_inject by lia.
  unfold Qdiv. apply Qmult_comp; [reflexivity|].
  unfold pow2. by rewrite Qpower_opp.
Qed.

Lemma scaled_back n e :
  (e <= 0)%Z → inject_Z (n * 2 ^ (- e)) * pow2 e == inject_Z n.
Proof.
  intros He. rewrite <- scaled_integer by done.
  field. apply Qnot_eq_sym, Qlt_not_eq, pow2_pos.
Qed.

(** Rounding does not cross an integer below [2^53]. *)
Lemma round64_pos_ge n v :
  (0 < n < 2 ^ 53)%Z → inject_Z n <= v → inject_Z n <= round64_pos v.
Proof.
  intros [Hn0 Hn] Hle.
  assert (0 < v) as Hv by (eapply Qlt_le_trans; [by apply inject_Z_pos|done]).
  destruct (Z_le_gt_dec (ilog2 v - 52) 0) as [He|He].
  - unfold round64_pos. set (e := (ilog2 v - 52)%Z) in *.
    rewrite <- (scaled_back n e) by done.
    apply Qmult_le_r; [apply pow2_pos|].
    rewrite <- Zle_Qle. apply rne_ge.
    rewrite <- scaled_integer by done.
    apply Qmult_le_r; [apply Qinv_lt_0_compat, pow2_pos|done].
  - eapply Qle_trans; [|by apply round64_pos_lower].
    eapply Qle_trans; [|apply (pow2_le 53); lia].
    rewrite pow2_inject by done. rewrite <- Zle_Qle. lia.
Qed.

Lemma round64_pos_le n v :
  (0 < n < 2 ^ 53)%Z → 0 < v → v <= inject_Z n → round64_pos v <= inject_Z n.
Proof.
  intros [Hn0 Hn] Hv Hle.
  destruct (ilog2_spec v Hv) as [H1 _].
  assert (ilog2 v - 52 <= 0)%Z as He.
  { assert (pow2 (ilog2 v) < pow2 53) as Hlt.
    { eapply Qle_lt_trans; [exact H1|]. eapply Qle_lt_trans; [exact Hle|].
      rewrite pow2_inject by done. by rewrite <- Zlt_Qlt. }
    apply pow2_lt_inv in Hlt. lia. }
  unfold round64_pos. set (e := (ilog2 v - 52)%Z) in *.
  rewrite <- (scaled_back n e) by done.
  apply Qmult_le_r; [apply pow2_pos|].
  rewrite <- Zle_Qle. apply rne_le.
  rewrite <- scaled_integer by done.
  apply Qmult_le_r; [apply Qinv_lt_0_compat, pow2_pos|done].
Qed.


(** *** Signs *)

Lemma round64_positive v : 0 < v → round64 v = round64_pos v.
Proof.
  destruct v as [[|n|n] d]; unfold Qlt; simpl; try lia. done.
Qed.



(** The age test of [cleanup_old_sessions]: for limits below [2^34]
    seconds the float comparison decides exactly whether the age exceeds
    the limit. *)


End binary64_facts.

(** ** [cleanup_old_sessions] *)

Lemma locate_chunks_dir (c : path) (t : gmap path node) :
  t !! c = Some Dir →
  locate (Fsys c t) CHUNKS_DIR = Returns (c ++ ["recording_chunks"]).
Proof. intros Hc. unfold locate. simpl. by rewrite Hc. Qed.

Lemma cleanup_old_step_run (c : path) (t : gmap path node) (now max : Z)
  (n : string) (cleaned : Z) :
  let root := c ++ ["recording_chunks"] in
  t !! c = Some Dir → t !! root = Some Dir →
  n ≠ ".." → readable t root n →
  cleanup_old_step now max (child CHUNKS_DIR n) cleaned (Fsys c t) =
  if stale t root max now n
  then (Returns (cleaned + 1),
        Fsys c (filter (λ kv, ¬ (root ++ [n]) `prefix_of` kv.1) t))
  else (Returns cleaned, Fsys c t).
Proof.
  intros root Hc Hroot Hn Hread.
  assert (Hl : locate (Fsys c t) (child CHUNKS_DIR n) = Returns (root ++ [n])).
  { apply locate_child; [by apply locate_chunks_dir|done..]. }
  unfold cleanup_old_step.
  erewrite bind_Returns by apply is_dir_run.
  unfold stat at 1. rewrite Hl. cbn [tree]. unfold stale.
  destruct (t !! (root ++ [n])) as [[|?]|] eqn:Hdir; cbn [is_Dir negb]; try done.
  assert (Hmf : child CHUNKS_DIR n /: "metadata.json"
                = child (child CHUNKS_DIR n) "metadata.json") by done.
  assert (Hlm : locate (Fsys c t) (child CHUNKS_DIR n /: "metadata.json")
                = Returns (root ++ [n; "metadata.json"])).
  { rewrite Hmf. erewrite locate_child; [|exact Hl|done..].
    by rewrite <- app_assoc. }
  erewrite bind_Returns by apply exists_run.
  unfold stat at 1. rewrite Hlm. cbn [tree].
  destruct (t !! (root ++ [n; "metadata.json"])) as [x|] eqn:Hmeta;
    cbn [is_some negb]; [|done].
  destruct Hread as (j & created & Hj & Hcreated); [done|by rewrite Hmeta|].
  rewrite Hmeta in Hj. injection Hj as ->.
  erewrite bind_Returns by (by eapply read_json_run).
  rewrite Hcreated. cbn [fromisoformat].
  erewrite bind_Returns by reflexivity.
  destruct (_ && _); [|done].
  erewrite bind_Returns; [done|].
  apply (rmtree_run (child CHUNKS_DIR n) (Fsys c t) (root ++ [n])); try done.
  - repeat constructor; done.
  - by destruct root.
Qed.

Lemma not_prefix_longer {A} (l k : list A) x : ¬ (l ++ x :: k) `prefix_of` l.
Proof.
  intros [m Hm]. apply (f_equal length) in Hm.
  rewrite !length_app in Hm. simpl in Hm. lia.
Qed.

Lemma prefix_entry_inv (root : path) n n' rest :
  (root ++ [n]) `prefix_of` (root ++ n' :: rest) → n = n'.
Proof.
  intros [m Hm]. rewrite <- app_assoc in Hm. apply app_inv_head in Hm.
  simpl in Hm. congruence.
Qed.

Lemma stale_agree (t t0 : gmap path node) (root : path) (max now : Z) (n : string) :
  (∀ rest, t !! (root ++ n :: rest) = t0 !! (root ++ n :: rest)) →
  stale t root max now n = stale t0 root max now n.
Proof. intros H. unfold stale. by rewrite !H. Qed.



Lemma cleanup_old_loop_run (c : path) (now max : Z) (t0 : gmap path node) :
  let root := c ++ ["recording_chunks"] in
  ∀ (names : list string) (t : gmap path node) (cleaned : Z),
  NoDup names →
  (∀ n, n ∈ names → n ≠ "..") →
  t !! c = Some Dir → t !! root = Some Dir →
  (∀ n rest, n ∈ names → t !! (root ++ n :: rest) = t0 !! (root ++ n :: rest)) →
  (∀ n, n ∈ names → readable t0 root n) →
  ∃ t',
    cleanup_old_loop now max (child CHUNKS_DIR <$> names) cleaned (Fsys c t) =
      (Returns (cleaned +
                Z.of_nat (length (List.filter (stale t0 root max now) names))),
       Fsys c t') ∧
    (∀ n q, n ∈ names → stale t0 root max now n = true →
            (root ++ [n]) `prefix_of` q → t' !! q = None) ∧
    (∀ q, (∀ n, n ∈ names → stale t0 root max now n = true →
                ¬ (root ++ [n]) `prefix_of` q) →
          t' !! q = t !! q) ∧
    (∀ q, t' !! q = None ∨ t' !! q = t !! q).
Proof.
  intros root names.
  induction names as [|n names IH]; intros t cleaned Hnd Hdd Hc Hroot Hagree Hread.
  - exists t. simpl. rewrite Z.add_0_r. split_and!; auto.
    intros n q Hn. by apply elem_of_nil in Hn.
  - apply NoDup_cons in Hnd as [Hnotin Hnd].
    cbn [fmap list_fmap cleanup_old_loop].
    assert (Hst : stale t root max now n = stale t0 root max now n).
    { apply stale_agree. intros rest. apply Hagree. left. }
    assert (Hreadn : readable t root n).
    { unfold readable. rewrite (Hagree n []), (Hagree n ["metadata.json"]) by left.
      apply Hread. left. }
    pose proof (cleanup_old_step_run c t now max n cleaned Hc Hroot
                  (Hdd n ltac:(left)) Hreadn) as Hstep.
    fold root in Hstep. rewrite Hst in Hstep.
    cbn [List.filter].
    destruct (stale t0 root max now n) eqn:Hstale.
    + set (t1 := filter (λ kv, ¬ (root ++ [n]) `prefix_of` kv.1) t) in *.
      assert (Hother : ∀ q, ¬ (root ++ [n]) `prefix_of` q → t1 !! q = t !! q).
      { intros q Hq. unfold t1. rewrite lookup_rmtree. by rewrite decide_False. }
      destruct (IH t1 (cleaned + 1)) as (t' & Hrun & HA & HB & HC); try done.
      { intros m Hm. apply Hdd. by right. }
      { rewrite Hother; [done|]. unfold root. rewrite <- app_assoc.
        apply not_prefix_longer. }
      { rewrite Hother; [done|]. apply not_prefix_longer. }
      { intros m rest Hm. rewrite Hother; [apply Hagree; by right|].
        intros ->%prefix_entry_inv. done. }
      { intros m Hm. apply Hread. by right. }
      exists t'. rewrite (bind_Returns _ _ _ _ _ Hstep), Hrun.
      split_and!.
      * do 2 f_equal. simpl length. lia.
      * intros m q Hm Hsm Hpre.
        apply elem_of_cons in Hm as [->|Hm]; [|by eapply HA].
        destruct (HC q) as [?|Heq]; [done|]. rewrite Heq.
        unfold t1. rewrite lookup_rmtree. by rewrite decide_True.
      * intros q Hq. rewrite HB.
        -- apply Hother. apply Hq; [left|done].
        -- intros m Hm. apply Hq. by right.
      * intros q. destruct (HC q) as [?|Heq]; [by left|]. rewrite Heq.
        unfold t1. rewrite lookup_rmtree. case_decide; auto.
    + destruct (IH t cleaned) as (t' & Hrun & HA & HB & HC); try done.
      { intros m Hm. apply Hdd. by right. }
      { intros m rest Hm. apply Hagree. by right. }
      { intros m Hm. apply Hread. by right. }
      exists t'. rewrite (bind_Returns _ _ _ _ _ Hstep), Hrun.
      split_and!; try done.
      * intros m q Hm Hsm Hpre.
        apply elem_of_cons in Hm as [->|Hm]; [congruence|by eapply HA].
      * intros q Hq. apply HB. intros m Hm. apply Hq. by right.
Qed.

Lemma stat_chunks_dir fs :
  stat fs CHUNKS_DIR = Some Dir →
  tree fs !! cwd fs = Some Dir ∧ tree fs !! storage_root fs = Some Dir ∧
  locate fs CHUNKS_DIR = Returns (storage_root fs).
Proof.
  unfold stat, locate, storage_root. simpl.
  destruct (tree fs !! cwd fs) as [[|?]|]; try done.
Qed.

Lemma prefix_same_entry (root : path) n m q :
  (root ++ [n]) `prefix_of` q → (root ++ [m]) `prefix_of` q → n = m.
Proof.
  intros [k ->] Hm. rewrite <- app_assoc in Hm. simpl in Hm.
  symmetry. by eapply prefix_entry_inv.
Qed.



Lemma fs_three_readable n :
  readable (tree fs_three) (storage_root fs_three) n.
Proof.
  unfold readable. change (storage_root fs_three) with ["srv"; "recording_chunks"].
  simpl app. intros _ Hmeta.
  destruct (decide (n = "old")) as [->|?]; [eexists _, _; split; reflexivity|].
  destruct (decide (n = "done")) as [->|?]; [eexists _, _; split; reflexivity|].
  destruct (decide (n = "new")) as [->|?]; [eexists _, _; split; reflexivity|].
  exfalso. apply Hmeta. unfold fs_three, fs_boot. cbn [tree].
  rewrite !lookup_insert_ne by congruence. apply lookup_empty.
Qed.




(** On [fs_three], at the hundredth hour and with a limit of 24 hours,
    exactly the session ["old"] goes. *)
Example cleanup_old_sessions_three :
  let r := cleanup_old_sessions 24 360000000000 fs_three in
  r.1 = Returns 1 ∧
  tree r.2 !! ["srv"; "recording_chunks"; "old"] = None ∧
  tree r.2 !! ["srv"; "recording_chunks"; "old"; "metadata.json"] = None ∧
  tree r.2 !! ["srv"; "recording_chunks"; "done"] = Some Dir ∧
  tree r.2 !! ["srv"; "recording_chunks"; "new"] = Some Dir.
Proof. vm_compute. repeat split. Qed.

(** ** [list_sessions] *)

Lemma list_sessions_step_run (c : path) (t : gmap path node) (n : string)
  (sessions : list jdict) :
  let root := c ++ ["recording_chunks"] in
  t !! c = Some Dir → t !! root = Some Dir →
  n ≠ ".." → parsable t root n →
  list_sessions_step (child CHUNKS_DIR n) sessions (Fsys c t) =
  (Returns (sessions ++ option_list (record_of t root n)), Fsys c t).
Proof.
  intros root Hc Hroot Hn Hread.
  assert (Hl : locate (Fsys c t) (child CHUNKS_DIR n) = Returns (root ++ [n])).
  { apply locate_child; [by apply locate_chunks_dir|done..]. }
  unfold list_sessions_step.
  erewrite bind_Returns by apply is_dir_run.
  unfold stat at 1. rewrite Hl. cbn [tree]. unfold record_of.
  destruct (t !! (root ++ [n])) as [[|?]|] eqn:Hdir; cbn [is_Dir negb];
    try (by rewrite app_nil_r).
  assert (Hmf : child CHUNKS_DIR n /: "metadata.json"
                = child (child CHUNKS_DIR n) "metadata.json") by done.
  assert (Hlm : locate (Fsys c t) (child CHUNKS_DIR n /: "metadata.json")
                = Returns (root ++ [n; "metadata.json"])).
  { rewrite Hmf. erewrite locate_child; [|exact Hl|done..].
    by rewrite <- app_assoc. }
  erewrite bind_Returns by apply exists_run.
  unfold stat at 1. rewrite Hlm. cbn [tree].
  destruct (t !! (root ++ [n; "metadata.json"])) as [x|] eqn:Hmeta;
    cbn [is_some negb]; [|by rewrite app_nil_r].
  destruct Hread as (j & Hj); [done|by rewrite Hmeta|].
  rewrite Hmeta in Hj. injection Hj as ->.
  by erewrite bind_Returns by (by eapply read_json_run).
Qed.

Lemma list_sessions_loop_run (c : path) (t : gmap path node) :
  let root := c ++ ["recording_chunks"] in
  t !! c = Some Dir → t !! root = Some Dir →
  ∀ (names : list string) (sessions : list jdict),
  (∀ n, n ∈ names → n ≠ "..") →
  (∀ n, n ∈ names → parsable t root n) →
  list_sessions_loop (child CHUNKS_DIR <$> names) sessions (Fsys c t) =
  (Returns (sessions ++ omap (record_of t root) names), Fsys c t).
Proof.
  intros root Hc Hroot names.
  induction names as [|n names IH]; intros sessions Hdd Hread.
  - simpl. by rewrite app_nil_r.
  - cbn [fmap list_fmap list_sessions_loop].
    erewrite bind_Returns; cycle 1.
    { apply list_sessions_step_run; [done..|apply Hdd; left|apply Hread; left]. }
    fold root. rewrite IH.
    + rewrite <- app_assoc. cbn [omap list_omap].
      by destruct (record_of t root n).
    + intros m Hm. apply Hdd. by right.
    + intros m Hm. apply Hread. by right.
Qed.

Lemma record_of_spec (t : gmap path node) (root : path) (n : string) (j : jdict) :
  record_of t root n = Some j ↔
  t !! (root ++ [n]) = Some Dir ∧
  t !! (root ++ [n; "metadata.json"]) = Some (File (Json j)).
Proof.
  unfold record_of. split.
  - destruct (t !! (root ++ [n])) as [[|?]|]; try done.
    destruct (t !! (root ++ [n; "metadata.json"])) as [[|[?|?]]|]; try done.
    by intros [= ->].
  - by intros [-> ->].
Qed.

(** X1: when the storage root exists and every [metadata.json] of a
    session directory is a JSON document, [list_sessions] returns and
    leaves the file system as it is; the list holds, in the order of the
    directory listing, the record of every entry that is a directory with
    a [metadata.json], and nothing else: entries that are no directory or
    have no record are skipped. *)
Theorem list_sessions_spec fs :
  stat fs CHUNKS_DIR = Some Dir →
  (∀ n, parsable (tree fs) (storage_root fs) n) →
  ∃ sessions,
    list_sessions fs = (Returns sessions, fs) ∧
    sessions = omap (record_of (tree fs) (storage_root fs))
                    (listdir (tree fs) (storage_root fs)) ∧
    ∀ j, j ∈ sessions ↔
         ∃ n, n ≠ "." ∧ n ≠ ".." ∧
              tree fs !! (storage_root fs ++ [n]) = Some Dir ∧
              tree fs !! (storage_root fs ++ [n; "metadata.json"])
              = Some (File (Json j)).
Proof.
  intros (Hc & Hroot & Hloc)%stat_chunks_dir Hread.
  destruct fs as [c t]. cbn [cwd tree] in *. unfold storage_root in *. cbn [cwd] in *.
  eexists. split_and!; [|reflexivity|].
  - unfold list_sessions.
    erewrite bind_Returns; cycle 1.
    { unfold iterdir, bind, get_fs, lift, ret. rewrite Hloc. cbn [tree].
      by rewrite Hroot. }
    rewrite list_sessions_loop_run; try done.
    intros n Hn. by apply elem_of_listdir in Hn as (_ & _ & ?).
  - intros j. rewrite list_elem_of_omap. split.
    + intros (n & Hn & [Hd Hj]%record_of_spec).
      apply elem_of_listdir in Hn as (_ & ? & ?). by exists n.
    + intros (n & H1 & H2 & Hd & Hj). exists n. split.
      * apply elem_of_listdir. split_and!; [by eexists|done..].
      * by apply record_of_spec.
Qed.

Lemma fs_three_parsable n :
  parsable (tree fs_three) (storage_root fs_three) n.
Proof.
  intros Hd Hm.
  destruct (fs_three_readable n Hd Hm) as (j & _ & Hj & _). by exists j.
Qed.

Lemma list_sessions_spec_witness :
  ∃ sessions,
    list_sessions fs_three = (Returns sessions, fs_three) ∧
    sessions = omap (record_of (tree fs_three) (storage_root fs_three))
                    (listdir (tree fs_three) (storage_root fs_three)) ∧
    ∀ j, j ∈ sessions ↔
         ∃ n, n ≠ "." ∧ n ≠ ".." ∧
              tree fs_three !! (storage_root fs_three ++ [n]) = Some Dir ∧
              tree fs_three !! (storage_root fs_three ++ [n; "metadata.json"])
              = Some (File (Json j)).
Proof.
  apply (list_sessions_spec fs_three).
  - vm_compute. reflexivity.
  - apply fs_three_parsable.
Defined.

(** X2: when the storage root does not exist, the two sweeps over it,
    [list_sessions] and [cleanup_old_sessions], raise [FileNotFoundError]
    and change nothing. *)
Theorem sweeps_need_storage_root max_age_hours now fs :
  tree fs !! cwd fs = Some Dir →
  tree fs !! storage_root fs = None →
  list_sessions fs = (Raises FileNotFoundError, fs) ∧
  cleanup_old_sessions max_age_hours now fs = (Raises FileNotFoundError, fs).
Proof.
  intros Hc Hroot.
  assert (iterdir CHUNKS_DIR fs = (Raises FileNotFoundError, fs)) as Hit.
  { unfold iterdir, bind, get_fs, lift, raise.
    destruct fs as [c t]. cbn [cwd tree] in *.
    rewrite (locate_chunks_dir c t Hc). cbn [tree].
    unfold storage_root in Hroot. cbn [cwd] in Hroot. by rewrite Hroot. }
  split.
  - unfold list_sessions. by apply bind_Raises.
  - unfold cleanup_old_sessions. by apply bind_Raises.
Qed.

Lemma sweeps_need_storage_root_witness :
  list_sessions fs_rootless = (Raises FileNotFoundError, fs_rootless) ∧
  cleanup_old_sessions 24 360000000000 fs_rootless
  = (Raises FileNotFoundError, fs_rootless).
Proof.
  apply (sweeps_need_storage_root 24 360000000000 fs_rootless); reflexivity.
Defined.

(** ** A record without a creation date *)

Lemma cleanup_old_loop_app (now max : Z) (l1 l2 : list pypath) :
  ∀ cleaned fs,
  cleanup_old_loop now max (l1 ++ l2) cleaned fs =
  bind (cleanup_old_loop now max l1 cleaned) (cleanup_old_loop now max l2) fs.
Proof.
  induction l1 as [|d l1 IH]; intros cleaned fs; [done|].
  cbn [app cleanup_old_loop]. unfold bind.
  destruct (cleanup_old_step now max d cleaned fs) as [[c'|e] fs1]; [|done].
  apply IH.
Qed.

Lemma cleanup_old_step_no_date (c : path) (t : gmap path node) (now max : Z)
  (n : string) (j : jdict) (cleaned : Z) :
  let root := c ++ ["recording_chunks"] in
  t !! c = Some Dir → t !! root = Some Dir → n ≠ ".." →
  t !! (root ++ [n]) = Some Dir →
  t !! (root ++ [n; "metadata.json"]) = Some (File (Json j)) →
  j !! "created_at" = None →
  cleanup_old_step now max (child CHUNKS_DIR n) cleaned (Fsys c t) =
  (Raises (KeyError "created_at"), Fsys c t).
Proof.
  intros root Hc Hroot Hn Hdir Hmeta Hj.
  assert (Hl : locate (Fsys c t) (child CHUNKS_DIR n) = Returns (root ++ [n])).
  { apply locate_child; [by apply locate_chunks_dir|done..]. }
  unfold cleanup_old_step.
  erewrite bind_Returns by apply is_dir_run.
  unfold stat at 1. rewrite Hl. cbn [tree]. rewrite Hdir. cbn [is_Dir negb].
  assert (Hmf : child CHUNKS_DIR n /: "metadata.json"
                = child (child CHUNKS_DIR n) "metadata.json") by done.
  assert (Hlm : locate (Fsys c t) (child CHUNKS_DIR n /: "metadata.json")
                = Returns (root ++ [n; "metadata.json"])).
  { rewrite Hmf. erewrite locate_child; [|exact Hl|done..].
    by rewrite <- app_assoc. }
  erewrite bind_Returns by apply exists_run.
  unfold stat at 1. rewrite Hlm. cbn [tree]. rewrite Hmeta. cbn [is_some negb].
  erewrite bind_Returns by (by eapply read_json_run).
  rewrite Hj. reflexivity.
Qed.

(** X3: one session record without a [created_at] field aborts the whole
    sweep: when every other record is readable, [cleanup_old_sessions]
    raises [KeyError] for ["created_at"], whatever the order of the
    directory listing; the session with that record is left as it is, and
    nothing outside the storage root changes. *)
Theorem cleanup_old_sessions_record_without_date max_age_hours now fs n j :
  stat fs CHUNKS_DIR = Some Dir →
  n ≠ "." → n ≠ ".." →
  tree fs !! (storage_root fs ++ [n]) = Some Dir →
  tree fs !! (storage_root fs ++ [n; "metadata.json"]) = Some (File (Json j)) →
  j !! "created_at" = None →
  (∀ m, m ≠ n → readable (tree fs) (storage_root fs) m) →
  ∃ fs',
    cleanup_old_sessions max_age_hours now fs =
      (Raises (KeyError "created_at"), fs') ∧
    kept (tree fs) (tree fs') (storage_root fs ++ [n]) ∧
    (∀ q, ¬ storage_root fs `prefix_of` q → tree fs' !! q = tree fs !! q).
Proof.
  intros (Hc & Hroot & Hloc)%stat_chunks_dir Hn1 Hn2 Hdir Hmeta Hj Hread.
  destruct fs as [c t]. cbn [cwd tree] in *. unfold storage_root in *. cbn [cwd] in *.
  set (root := c ++ ["recording_chunks"]) in *.
  assert (Hin : n ∈ listdir t root).
  { apply elem_of_listdir. split_and!; [by eexists|done..]. }
  apply list_elem_of_split in Hin as (l1 & l2 & Hsplit).
  pose proof (NoDup_listdir t root) as Hnd. rewrite Hsplit in Hnd.
  apply NoDup_app in Hnd as (Hnd1 & Hdisj & _).
  assert (Hl1 : ∀ m, m ∈ l1 → m ∈ listdir t root).
  { intros m Hm. rewrite Hsplit. apply elem_of_app. by left. }
  destruct (cleanup_old_loop_run c now max_age_hours t l1 t 0)
    as (t' & Hrun & HA & HB & HC); try done.
  { intros m Hm. by apply Hl1, elem_of_listdir in Hm as (_ & _ & ?). }
  { intros m Hm. apply Hread. intros ->. apply (Hdisj n Hm). left. }
  fold root in Hrun, HA, HB.
  assert (Hkept : ∀ q, (root ++ [n]) `prefix_of` q → t' !! q = t !! q).
  { intros q Hq. apply HB. intros m Hm _ Hmq.
    assert (m = n) as -> by (by eapply prefix_same_entry).
    apply (Hdisj n Hm). left. }
  exists (Fsys c t'). cbn [tree]. split_and!.
  - unfold cleanup_old_sessions.
    erewrite bind_Returns; cycle 1.
    { unfold iterdir, bind, get_fs, lift, ret. rewrite Hloc. cbn [tree].
      fold root. by rewrite Hroot. }
    rewrite Hsplit, fmap_app, cleanup_old_loop_app.
    rewrite (bind_Returns _ _ _ _ _ Hrun).
    cbn [fmap list_fmap cleanup_old_loop]. apply bind_Raises.
    apply (cleanup_old_step_no_date c t' now max_age_hours n j).
    + rewrite HB; [done|]. intros m _ _. unfold root. rewrite <- app_assoc.
      apply not_prefix_longer.
    + rewrite HB; [done|]. intros m _ _. apply not_prefix_longer.
    + done.
    + by rewrite Hkept.
    + rewrite Hkept; [done|]. exists ["metadata.json"].
      by rewrite <- (app_assoc root [n] ["metadata.json"]).
    + done.
  - done.
  - intros q Hq. apply HB. intros m _ _ Hm. apply Hq.
    etrans; [|exact Hm]. by exists [m].
Qed.

Lemma fs_undated_readable m :
  m ≠ "bad" → readable (tree fs_undated) (storage_root fs_undated) m.
Proof.
  intros Hm _ Hmeta. exfalso. apply Hmeta.
  unfold fs_undated, fs_boot, storage_root. cbn [tree cwd]. simpl app.
  rewrite !lookup_insert_ne by congruence. apply lookup_empty.
Qed.

Lemma cleanup_old_sessions_record_without_date_witness :
  ∃ fs',
    cleanup_old_sessions 24 360000000000 fs_undated =
      (Raises (KeyError "created_at"), fs') ∧
    kept (tree fs_undated) (tree fs') (storage_root fs_undated ++ ["bad"]) ∧
    (∀ q, ¬ storage_root fs_undated `prefix_of` q →
          tree fs' !! q = tree fs_undated !! q).
Proof.
  apply (cleanup_old_sessions_record_without_date 24 360000000000 fs_undated
           "bad" ∅).
  - vm_compute. reflexivity.
  - done.
  - done.
  - reflexivity.
  - reflexivity.
  - reflexivity.
  - apply fs_undated_readable.
Defined.

(** ** The controller: [initialize_recording] and [recording_status] *)

Lemma fsys_eta fs : Fsys (cwd fs) (tree fs) = fs.
Proof. by destruct fs. Qed.

(** X4: for a session without a [metadata.json], [recording_status]
    answers 404 "Session not found" with the message of [get_metadata] as
    detail, and changes nothing. *)
Theorem recording_status_unknown sid fs :
  stat fs (metadata_file (ChunkStorage_init sid)) = None →
  recording_status sid fs =
  (Returns (Response 404
     (<["error" := JStr "Session not found"]>
      (<["detail" := JStr ("Session " +:+ sid +:+ " does not exist")]> ∅))), fs).
Proof.
  intros Hs. unfold recording_status.
  erewrite catch_Raises; cycle 1.
  { apply bind_Raises. rewrite get_metadata_run, Hs. reflexivity. }
  reflexivity.
Qed.

Lemma recording_status_unknown_witness :
  recording_status "s1" fs_boot =
  (Returns (Response 404
     (<["error" := JStr "Session not found"]>
      (<["detail" := JStr ("Session " +:+ "s1" +:+ " does not exist")]> ∅))),
   fs_boot).
Proof.
  apply (recording_status_unknown "s1" fs_boot). vm_compute. reflexivity.
Defined.






(** X6: when a regular file is at the session path,
    [initialize_recording] answers 500 "Failed to initialize recording
    session" ([mkdir] refuses the file) and changes nothing. *)
Theorem initialize_recording_on_file sid mime now fs c :
  stat fs (session_dir (ChunkStorage_init sid)) = Some (File c) →
  ∃ detail,
    initialize_recording sid mime now fs =
    (Returns (Response 500
       (<["error" := JStr "Failed to initialize recording session"]>
        (<["detail" := JStr detail]> ∅))), fs).
Proof.
  intros Hs. eexists. unfold initialize_recording.
  erewrite catch_Raises; [reflexivity|].
  apply bind_Raises. unfold initialize_session.
  apply bind_Raises. unfold stat in Hs.
  unfold mkdir_exist_ok, bind, get_fs, lift, raise.
  destruct (locate fs _) as [q|e]; [|done]. by rewrite Hs.
Qed.

Lemma initialize_recording_on_file_witness :
  ∃ detail,
    initialize_recording "s1/metadata.json" "audio/webm" 2000 fs_s1 =
    (Returns (Response 500
       (<["error" := JStr "Failed to initialize recording session"]>
        (<["detail" := JStr detail]> ∅))), fs_s1).
Proof.
  apply (initialize_recording_on_file "s1/metadata.json" "audio/webm" 2000 fs_s1
           (Json (fresh_metadata "s1" "audio/webm" 1000))).
  vm_compute. reflexivity.
Defined.

(** ** The controller: [finalize_recording] *)

Lemma unlink_run p fs q c :
  locate fs p = Returns q → tree fs !! q = Some (File c) →
  unlink p fs = (Returns tt, Fsys (cwd fs) (delete q (tree fs))).
Proof.
  intros Hq Hc. unfold unlink, bind, get_fs, lift, put_tree. by rewrite Hq, Hc.
Qed.

Lemma stat_insert_file fs q c p :
  tree fs !! q ≠ Some Dir →
  (∀ d, locate fs p = Returns d → d ≠ q) →
  stat (Fsys (cwd fs) (<[q := File c]> (tree fs))) p = stat fs p.
Proof.
  intros Hq Hne.
  pose proof (same_but_insert_file q fs c Hq) as Hsame.
  set (fs1 := Fsys _ _) in *.
  assert (Hsame' : same_but q fs1 fs).
  { destruct Hsame as (H1 & H2 & H3). split_and!; [done|..].
    - intros k Hk. symmetry. by apply H2.
    - intros k. symmetry. apply H3. }
  unfold stat. destruct (locate fs p) as [d|e] eqn:E.
  - rewrite (locate_same_but q fs fs1 p d Hsame E).
    unfold fs1. cbn [tree]. rewrite lookup_insert_ne; [done|].
    intros ->. by apply (Hne d).
  - destruct (locate fs1 p) as [d'|e'] eqn:E'; [|done].
    apply (locate_same_but q fs1 fs) in E'; [congruence|done].
Qed.

(** X7: when the temporary file is new, can be created and lies outside
    the session directory, and the session has nothing to combine (no
    directory, or a directory without chunk files), [finalize_recording]
    answers 404 "Session not found or no chunks available" with the
    message of [combine_chunks] as detail, never calls the transcription,
    and leaves the file system as it was: the temporary file is removed
    again. *)
Theorem finalize_nothing_to_combine jt tr sid tmp room now fs q :
  locate fs (Path tmp) = Returns q →
  tree fs !! q = None →
  tree fs !! removelast q = Some Dir →
  (∀ d, locate fs (session_dir (ChunkStorage_init sid)) = Returns d →
        ¬ d `prefix_of` q) →
  stat fs (session_dir (ChunkStorage_init sid)) = None ∨
  (stat fs (session_dir (ChunkStorage_init sid)) = Some Dir ∧
   ∀ n, fnmatch_chunk n = true →
        stat fs (child (session_dir (ChunkStorage_init sid)) n) = None) →
  finalize_recording jt tr sid tmp room now fs =
  (Returns (Response 404
     (<["error" := JStr "Session not found or no chunks available"]>
      (<["detail" := JStr ("No chunks found for session " +:+ sid)]> ∅))), fs).
Proof.
  intros Hq Hnew Hpar Hout Hcase.
  set (sd := session_dir (ChunkStorage_init sid)) in *.
  set (fs1 := Fsys (cwd fs) (<[q := File (Bytes [])]> (tree fs))).
  assert (Hnd : tree fs !! q ≠ Some Dir) by (by rewrite Hnew).
  assert (Hsd : stat fs1 sd = stat fs sd).
  { apply stat_insert_file; [done|].
    intros d Hd Heq. apply (Hout d Hd). by rewrite Heq. }
  assert (Hchunks : get_chunks (ChunkStorage_init sid) fs1 = (Returns [], fs1)).
  { destruct Hcase as [Habs|[Hdir Hnone]].
    - apply get_chunks_absent. fold sd. by rewrite Hsd.
    - apply get_chunks_empty; fold sd; [by rewrite Hsd|].
      intros n Hn. rewrite <- (Hnone n Hn).
      apply stat_insert_file; [done|].
      destruct (stat_Dir _ _ Hdir) as (d & Hd & Hdd).
      destruct (fnmatch_chunk_not_dots n Hn) as [_ Hn2].
      rewrite (locate_child fs sd d n Hd Hdd Hn2).
      intros d' [= <-] Heq. apply (Hout d Hd). rewrite <- Heq. by exists [n]. }
  assert (Hq1 : locate fs1 (Path tmp) = Returns q).
  { eapply locate_same_but; [|exact Hq]. by apply same_but_insert_file. }
  unfold finalize_recording.
  erewrite bind_Returns; cycle 1.
  { apply catch_Returns. erewrite bind_Returns by (by apply open_w_run).
    reflexivity. }
  fold fs1. cbv beta iota.
  erewrite bind_Returns; cycle 1.
  { erewrite catch_Raises; cycle 1.
    { apply bind_Raises. unfold combine_chunks.
      by rewrite (bind_Returns _ _ _ _ _ Hchunks). }
    reflexivity. }
  erewrite bind_Returns by apply exists_run.
  unfold stat at 1. rewrite Hq1. unfold fs1 at 1. cbn [tree].
  rewrite lookup_insert_eq. cbn [is_some].
  erewrite bind_Returns; cycle 1.
  { apply catch_Returns. apply (unlink_run _ fs1 q (Bytes [])); [done|].
    unfold fs1. cbn [tree]. by rewrite lookup_insert_eq. }
  unfold fs1. cbn [cwd tree]. rewrite delete_insert_id by done.
  by rewrite fsys_eta.
Qed.

Lemma finalize_nothing_to_combine_witness :
  finalize_recording (λ _, []) (λ _, ret "") "s9" "/srv/tmp.webm" None 3000 fs_s1 =
  (Returns (Response 404
     (<["error" := JStr "Session not found or no chunks available"]>
      (<["detail" := JStr ("No chunks found for session " +:+ "s9")]> ∅))), fs_s1).
Proof.
  apply (finalize_nothing_to_combine (λ _, []) (λ _, ret "") "s9" "/srv/tmp.webm"
           None 3000 fs_s1 ["srv"; "tmp.webm"]).
  - vm_compute. reflexivity.
  - vm_compute. reflexivity.
  - vm_compute. reflexivity.
  - intros d Hd. vm_compute in Hd. injection Hd as <-.
    intros [k Hk]. discriminate.
  - left. vm_compute. reflexivity.
Defined.

(** X8: the whole of a recording.  On the session ["s1"] with its three
    chunks, with a transcription that returns ["hello"],
    [finalize_recording] answers 200 with the transcript, three chunks and
    four bytes; afterwards the session directory and the temporary file
    are gone: the file system is the one of a server just started. *)
Example finalize_recording_end_to_end :
  finalize_recording (λ _, []) (λ _, ret "hello") "s1" "/srv/tmp.webm"
    None 3000 fs_s1_abc =
  (Returns (Response 200
     (<["transcript" := JStr "hello"]>
      (<["chunks_combined" := JInt 3]>
      (<["total_size" := JInt 4]>
      (<["status" := JStr "success"]> ∅))))), fs_boot).
Proof.
  lazymatch goal with
  | |- ?x = ?y => exact (eq_refl y <: x = y)
  end.
Qed.

(** ** Session ids that end in [".."] *)

(** X12: a session id is joined to the storage root as it is.  With the
    id ["s1/.."] the session path is the storage root itself: [cleanup]
    empties it, every session included, and then raises
    [FileNotFoundError], because the path no longer resolves when the
    directory itself is to be removed.  With the id [".."] the same
    happens one level up, and the storage root is removed too. *)
Example cleanup_dotdot_session_id :
  cleanup (ChunkStorage_init "s1/..") fs_s1 = (Raises FileNotFoundError, fs_boot) ∧
  cleanup (ChunkStorage_init "..") fs_s1 = (Raises FileNotFoundError, fs_rootless).
Proof.
  split.
  - lazymatch goal with
    | |- ?x = ?y => exact (eq_refl y <: x = y)
    end.
  - lazymatch goal with
    | |- ?x = ?y => exact (eq_refl y <: x = y)
    end.
Qed.

(** ** Chunk names beyond six digits *)


(** ** Floats that are integers *)

Section binary64_integers.
Local Open Scope Q_scope.

(** X10: rounding to a float leaves every integer of magnitude below
    [2^53] as it is. *)
Theorem round64_integer n :
  (Z.abs n < 2 ^ 53)%Z → round64 (inject_Z n) == inject_Z n.
Proof.
  intros Hn. destruct n as [|p|p].
  - reflexivity.
  - assert (0 < inject_Z (Z.pos p)) as Hpos by (by apply inject_Z_pos).
    rewrite round64_positive by done.
    apply Qle_antisym.
    + apply round64_pos_le; [lia|done|apply Qle_refl].
    + apply round64_pos_ge; [lia|apply Qle_refl].
  - unfold round64. cbn [Qnum inject_Z].
    change (- (Z.neg p # 1)) with (inject_Z (Z.pos p)).
    assert (0 < inject_Z (Z.pos p)) as Hpos by (by apply inject_Z_pos).
    assert (round64_pos (inject_Z (Z.pos p)) == inject_Z (Z.pos p)) as ->.
    { apply Qle_antisym.
      + apply round64_pos_le; [lia|done|apply Qle_refl].
      + apply round64_pos_ge; [lia|apply Qle_refl]. }
    reflexivity.
Qed.

Lemma round64_integer_witness : round64 (inject_Z 3600) == inject_Z 3600.
Proof. apply (round64_integer 3600). reflexivity. Defined.

(** X11: the float nearest to one tenth is [3602879701896397 / 2^55]; an
    age of 5000000 hours and one microsecond, in seconds, is rounded to
    the whole number of seconds and does not exceed a limit of 5000000
    hours, while at the limit of 4772185 hours one more microsecond
    does. *)
Example binary64_roundings :
  round64 (1 # 10) == 3602879701896397 # 36028797018963968 ∧
  total_seconds 18000000000000001 == 18000000000 ∧
  float_gt_int (float_div (total_seconds 18000000000000001) 3600) 5000000
  = false ∧
  float_gt_int (float_div (total_seconds 17179866000000001) 3600) 4772185
  = true.
Proof. split_and!; vm_compute; reflexivity. Qed.

End binary64_integers.
